(** * astranet_cli: configuration store, schema migration engine and
      cluster bootstrap helpers

    A shallow embedding of the parts of [astranet_cli] that carry
    sequencing and merge invariants:

    - [migration_manager.py]: [get_current_version],
      [get_pending_migrations], [apply_migration], [migrate],
      [create_migration];
    - [cockroach_manager.py]: [load_config], [save_config],
      [update_config], [stop_ca_server], [init_cluster],
      [create_database], [drop_database], [is_cockroach_installed],
      [get_cockroach_binary], [is_cockroach_running], [stop_cockroach],
      the certificate helpers and [download_ca_from_cluster];
    - [system_utils.py]: [run_command] (as an oracle for the external
      process), [get_service_pid], [is_port_in_use], [kill_process];
    - [astranet_manager.py]: [get_services_status], [stop_backend],
      [stop_dashboard], [compile_backend].

    Python strings are [string]s of ASCII characters, Python [int]s are
    [Z], [dict]s with string keys are [gmap]s, the files under
    [~/.astranet] are a [gmap] from path to content, and every external
    command goes through one oracle that sees the commands run before it
    and the files, and that may change the files, return an exit status,
    fail to start, or be interrupted.  Operations are functions in a
    state, output and exception monad; what they print is their output. *)

From Stdlib Require Import ZArith Ascii String List Sorted Permutation.
From stdpp Require Import base tactics option list sorting gmap strings pretty.

Local Open Scope string_scope.
Local Open Scope list_scope.
Local Open Scope Z_scope.

(** ** Python string primitives *)

Module PyStr.

(** [c.isdigit()] on an ASCII character. *)
Definition is_digit (c : ascii) : bool :=
  let n := nat_of_ascii c in (48 <=? n)%nat && (n <=? 57)%nat.

Definition digit_val (c : ascii) : Z := Z.of_nat (nat_of_ascii c) - 48.

(** Characters that [str.strip] and [int] treat as white space:
    TAB, LF, VT, FF, CR, FS, GS, RS, US and SPACE. *)
Definition is_space (c : ascii) : bool :=
  let n := nat_of_ascii c in
  ((9 <=? n)%nat && (n <=? 13)%nat) || ((28 <=? n)%nat && (n <=? 32)%nat).

(** [s.isdigit()]: every character is a digit and there is at least one. *)
Fixpoint all_digits (s : string) : bool :=
  match s with
  | EmptyString => true
  | String c s' => is_digit c && all_digits s'
  end.

Definition isdigit (s : string) : bool :=
  match s with
  | EmptyString => false
  | _ => all_digits s
  end.

Fixpoint lstrip (s : string) : string :=
  match s with
  | EmptyString => EmptyString
  | String c s' => if is_space c then lstrip s' else s
  end.

Fixpoint rstrip (s : string) : string :=
  match s with
  | EmptyString => EmptyString
  | String c s' =>
      match rstrip s' with
      | EmptyString => if is_space c then EmptyString else String c EmptyString
      | r => String c r
      end
  end.

Definition strip (s : string) : string := rstrip (lstrip s).

(** The digit part of a base-10 integer literal: decimal digits, where a
    single underscore may sit between two digits.  [acc] is the value
    read so far, [after_digit] tells whether the previous character was a
    digit. *)
Fixpoint int_digits (acc : Z) (after_digit : bool) (s : string) : option Z :=
  match s with
  | EmptyString => if after_digit then Some acc else None
  | String c s' =>
      if Ascii.eqb c "_" then
        if after_digit then int_digits acc false s' else None
      else if is_digit c then int_digits (10 * acc + digit_val c) true s'
      else None
  end.

(** [int(s)]: [None] stands for [ValueError]. *)
Definition int (s : string) : option Z :=
  match strip s with
  | String "-" r => Z.opp <$> int_digits 0 false r
  | String "+" r => int_digits 0 false r
  | t => int_digits 0 false t
  end.

(** [s.split(sep)[0]]: the text before the first [sep]. *)
Fixpoint split_head (sep : ascii) (s : string) : string :=
  match s with
  | EmptyString => EmptyString
  | String c s' => if Ascii.eqb c sep then EmptyString else String c (split_head sep s')
  end.

(** [s.split(sep)]. *)
Fixpoint split (sep : ascii) (s : string) : list string :=
  match s with
  | EmptyString => [EmptyString]
  | String c s' =>
      if Ascii.eqb c sep then EmptyString :: split sep s'
      else match split sep s' with
           | h :: t => String c h :: t
           | [] => [String c EmptyString]
           end
  end.

(** [s.rfind(c)]: index of the last occurrence. *)
Fixpoint rfind (c : ascii) (s : string) : option nat :=
  match s with
  | EmptyString => None
  | String d s' =>
      match rfind c s' with
      | Some i => Some (S i)
      | None => if Ascii.eqb d c then Some O else None
      end
  end.

(** [s.endswith(suffix)]. *)
Definition endswith (s suffix : string) : bool :=
  let n := String.length s in
  let k := String.length suffix in
  (k <=? n)%nat && String.eqb (substring (n - k) k s) suffix.

(** [needle in s]. *)
Fixpoint contains (needle s : string) : bool :=
  String.prefix needle s ||
  match s with
  | EmptyString => false
  | String _ s' => contains needle s'
  end.

(** [str(z)]. *)
Definition str (z : Z) : string := pretty z.

Fixpoint zeros (n : nat) : string :=
  match n with
  | O => EmptyString
  | S n' => String "0" (zeros n')
  end.

Definition zfill (w : nat) (s : string) : string :=
  zeros (w - String.length s) +:+ s.

(** [f"{z:03d}"]: the sign counts in the width. *)
Definition format_03d (z : Z) : string :=
  if z <? 0 then String "-" (zfill 2 (pretty (Z.abs_N z)))
  else zfill 3 (pretty (Z.to_N z)).

End PyStr.

(** ** Values, exceptions and the state of the host *)

Set Warnings "-register-all".

(** What [json.load] returns.  A JSON object is a Python [dict] with string
    keys; the claims never depend on the order of its keys. *)
Inductive json : Type :=
  | JNull
  | JBool (b : bool)
  | JInt (z : Z)
  | JFloat (literal : string)
  | JStr (s : string)
  | JArr (items : list json)
  | JObj (fields : gmap string json).

(** The exceptions the modelled code can meet.  All but [KeyboardInterrupt]
    derive from [Exception]. *)
Inductive exn : Type :=
  | OSError | JSONDecodeError | ValueError | TypeError | AttributeError
  | KeyError | KeyboardInterrupt.

Definition is_Exception (e : exn) : bool :=
  match e with
  | KeyboardInterrupt => false
  | _ => true
  end.

Inductive result (A : Type) : Type :=
  | Ret (a : A)
  | Raise (e : exn).
Arguments Ret {A} a.
Arguments Raise {A} e.

(** [config.json], next to the code.  [Json doc] is a file holding the text
    that [json.dump] writes for [doc], which [json.load] reads back as
    [doc]. *)
Inductive config_file : Type :=
  | NoFile
  | Unreadable
  | NotJson
  | Json (doc : json).

(** Lines printed through [console.print], with the colour of their rich
    markup as severity. *)
Inductive message : Type :=
  | MsgSchemaVersion (v : Z)
  | WarnNoMigrationsDir
  | WarnIgnoredFile (name : string)
  | MsgApplying (v : Z) (name : string)
  | MsgApplied (v : Z)
  | ErrApplying (v : Z)
  | ErrText (text : string)
  | MsgUpToDate
  | MsgFound (n : nat)
  | ErrHalting (v : Z)
  | MsgAllApplied
  | MsgCreated (name : string)
  | WarnReadConfig (e : exn)
  | ErrSaveConfig (e : exn)
  | WarnCaNotRunning
  | MsgStoppingCa (pid : string)
  | MsgCaStopped
  | ErrStoppingCa
  | MsgInitializing
  | MsgExecInit
  | MsgInitialized
  | MsgText (text : string)
  | MsgBlank
  | MsgCreatingDatabase
  | MsgCreateDatabase
  | ErrCreateDatabase (text : string)
  | MsgDatabaseReady
  | MsgDatabaseCreated
  | WarnDatabaseNotCreated
  | WarnAlreadyInitialized
  | ErrInit
  | HintLogs
  | ErrInitException (e : exn).

Inductive severity : Type := Dim | Plain | Info | Success | Warning | Error.

Definition level (m : message) : severity :=
  match m with
  | MsgSchemaVersion _ | MsgExecInit | MsgText _ => Dim
  | MsgInitializing | MsgStoppingCa _ | MsgCreatingDatabase | MsgBlank
  | MsgCreateDatabase => Plain
  | MsgApplying _ _ => Info
  | MsgApplied _ | MsgUpToDate | MsgAllApplied | MsgCreated _
  | MsgCaStopped | MsgInitialized | MsgDatabaseCreated
  | MsgDatabaseReady => Success
  | WarnNoMigrationsDir | WarnIgnoredFile _ | MsgFound _ | WarnReadConfig _
  | WarnCaNotRunning | WarnDatabaseNotCreated | WarnAlreadyInitialized
  | HintLogs => Warning
  | ErrApplying _ | ErrText _ | ErrHalting _ | ErrSaveConfig _
  | ErrStoppingCa | ErrInit | ErrInitException _ | ErrCreateDatabase _ => Error
  end.

(** The host as the tool sees it.  [files] are the files under
    [~/.astranet], by path.  [migrations] is the migrations directory:
    [None] when it does not exist, otherwise its entries in the order the
    file system iterates them, each with its text ([None]: the file cannot
    be read).  [issued] lists the shell commands run so far. *)
Record state : Type := State {
  files : gmap string string;
  config : config_file;
  migrations : option (list (string * option string));
  issued : list string
}.

(** What running a shell command can do: exit with a status and captured
    output, fail to start ([subprocess.run] raises an [Exception]), or be
    interrupted by Ctrl-C.  In each case the files may have changed. *)
Inductive spawned : Type :=
  | Exited (returncode : Z) (stdout stderr : string) (files' : gmap string string)
  | SpawnFailed (text : string) (files' : gmap string string)
  | Interrupted (files' : gmap string string).

(** The settings every operation resolves before it does anything else:
    the binary from [get_cockroach_binary], the paths under [Path.home()],
    and the values read with [config.get(key, default)], already formatted
    as they appear in the command lines. *)
Record settings : Type := Settings {
  is_root : bool;
  astranet_dir : string;
  cockroach : string;
  sql_port : string;
  db_name : string
}.

(** ** A state, output and exception monad *)

Definition M (A : Type) : Type := state → result A * state * list message.

#[global] Instance M_ret : MRet M := λ A a s, (Ret a, s, []).

#[global] Instance M_bind : MBind M := λ A B k m s,
  match m s with
  | (Ret a, s1, o1) => let '(r, s2, o2) := k a s1 in (r, s2, o1 ++ o2)
  | (Raise e, s1, o1) => (Raise e, s1, o1)
  end.

Definition print (m : message) : M unit := λ s, (Ret tt, s, [m]).

Definition raise {A} (e : exn) : M A := λ s, (Raise e, s, []).

Definition get_state : M state := λ s, (Ret s, s, []).

Definition put_state (s' : state) : M unit := λ _, (Ret tt, s', []).

(** [try: body / except Exception as e: handler(e)]. *)
Definition try_except {A} (body : M A) (handler : exn → M A) : M A := λ s,
  match body s with
  | (Raise e, s1, o1) =>
      if is_Exception e
      then let '(r, s2, o2) := handler e s1 in (r, s2, o1 ++ o2)
      else (Raise e, s1, o1)
  | returned => returned
  end.

(** [try: body / finally: cleanup]: the cleanup runs on every exit of the
    body; the body's result or exception stands unless the cleanup itself
    raises. *)
Definition try_finally {A} (body : M A) (cleanup : M unit) : M A := λ s,
  let '(r, s1, o1) := body s in
  match cleanup s1 with
  | (Ret _, s2, o2) => (r, s2, o1 ++ o2)
  | (Raise e, s2, o2) => (Raise e, s2, o1 ++ o2)
  end.

Definition newline : string := String (ascii_of_nat 10) EmptyString.
Definition dquote : string := String (ascii_of_nat 34) EmptyString.

(** ** Python built-ins used by the managers *)

(** [sorted(l)] and [sorted(l, key=...)]: a stable sort, here by insertion.
    [leb x y] is [not (y < x)]. *)
Fixpoint insort {A} (leb : A → A → bool) (x : A) (l : list A) : list A :=
  match l with
  | [] => [x]
  | y :: l' => if leb x y then x :: l else y :: insort leb x l'
  end.

Definition py_sorted {A} (leb : A → A → bool) (l : list A) : list A :=
  foldr (insort leb) [] l.

(** [max(l)]: [ValueError] on an empty list. *)
Definition py_max (l : list Z) : M Z :=
  match l with
  | [] => raise ValueError
  | x :: l' => mret (foldl Z.max x l')
  end.

(** [obj.get(key, default)]: only a [dict] has [get]. *)
Definition py_get (obj : json) (key : string) (dflt : json) : M json :=
  match obj with
  | JObj d => mret (default dflt (d !! key))
  | _ => raise AttributeError
  end.

(** [key in obj]. *)
Definition py_contains (key : string) (obj : json) : M bool :=
  match obj with
  | JObj d => mret (bool_decide (is_Some (d !! key)))
  | JArr l =>
      mret (existsb (λ x, match x with JStr t => String.eqb t key | _ => false end) l)
  | JStr t => mret (PyStr.contains key t)
  | _ => raise TypeError
  end.

(** [obj[key] = v] for a string [key]. *)
Definition py_setitem (obj : json) (key : string) (v : json) : M json :=
  match obj with
  | JObj d => mret (JObj (<[key := v]> d))
  | _ => raise TypeError
  end.

(** [obj[key]] for a string [key]. *)
Definition py_getitem (obj : json) (key : string) : M json :=
  match obj with
  | JObj d =>
      match d !! key with
      | Some v => mret v
      | None => raise KeyError
      end
  | _ => raise TypeError
  end.

(** [obj.update(other)]: the fields of [other] win. *)
Definition py_update (obj : json) (other : gmap string json) : M json :=
  match obj with
  | JObj d => mret (JObj (other ∪ d))
  | _ => raise AttributeError
  end.

(** ** Files *)

Definition set_files (f : gmap string string) (s : state) : state :=
  {| files := f; config := config s; migrations := migrations s; issued := issued s |}.

Definition set_config (c : config_file) (s : state) : state :=
  {| files := files s; config := c; migrations := migrations s; issued := issued s |}.

Definition set_migrations (m : option (list (string * option string))) (s : state) : state :=
  {| files := files s; config := config s; migrations := m; issued := issued s |}.

Definition path_exists (path : string) : M bool :=
  s ← get_state; mret (bool_decide (is_Some (files s !! path))).

Definition read_text (path : string) : M string :=
  s ← get_state;
  match files s !! path with
  | Some text => mret text
  | None => raise OSError
  end.

(** [path.write_text(text)]; the directory [~/.astranet] exists. *)
Definition write_text (path text : string) : M unit :=
  s ← get_state; put_state (set_files (<[path := text]> (files s)) s).

Definition unlink (path : string) : M unit :=
  s ← get_state;
  match files s !! path with
  | Some _ => put_state (set_files (delete path (files s)) s)
  | None => raise OSError
  end.

Definition config_exists : M bool :=
  s ← get_state;
  mret (match config s with NoFile => false | _ => true end).

(** [with open(config_file, 'r') as f: json.load(f)]. *)
Definition json_load : M json :=
  s ← get_state;
  match config s with
  | NoFile | Unreadable => raise OSError
  | NotJson => raise JSONDecodeError
  | Json doc => mret doc
  end.

(** [with open(config_file, 'w') as f: json.dump(doc, f, indent=2)]. *)
Definition json_dump (doc : json) : M unit :=
  s ← get_state; put_state (set_config (Json doc) s).

(** The text of a migration file, by name. *)
Fixpoint entry_text (name : string) (entries : list (string * option string)) : option string :=
  match entries with
  | [] => None
  | (n, t) :: rest => if String.eqb n name then t else entry_text name rest
  end.

Definition read_migration (name : string) : M string :=
  s ← get_state;
  match migrations s ≫= entry_text name with
  | Some text => mret text
  | None => raise OSError
  end.

Fixpoint entry_store (name text : string) (entries : list (string * option string))
  : list (string * option string) :=
  match entries with
  | [] => [(name, Some text)]
  | (n, t) :: rest =>
      if String.eqb n name then (n, Some text) :: rest
      else (n, t) :: entry_store name text rest
  end.

Definition write_migration (name text : string) : M unit :=
  s ← get_state;
  match migrations s with
  | Some entries => put_state (set_migrations (Some (entry_store name text entries)) s)
  | None => raise OSError
  end.

(** [migrations_dir.glob("*.sql")]: the names that end in [.sql], in the
    order the file system gives them. *)
Definition glob_sql (entries : list (string * option string)) : list string :=
  filter (λ n, PyStr.endswith n ".sql") (fst <$> entries).

(** [Path(name).stem]: the name without its last suffix. *)
Definition stem (name : string) : string :=
  match PyStr.rfind "." name with
  | Some i =>
      if ((0 <? i)%nat && (i <? String.length name - 1)%nat)
      then substring 0 i name else name
  | None => name
  end.

(** [f.stem.split('_')[0]]. *)
Definition version_prefix (name : string) : string :=
  PyStr.split_head "_" (stem name).

(** ** The managers *)

Section Managers.

(** The outside world: what a command does, given the commands run before
    it, its text and the files. *)
Variable spawn : list string → string → gmap string string → spawned.
Variable env : settings.
(** The stub text [create_migration] writes, by version and name; no
    property here depends on it. *)
Variable template : Z → string → string.

Definition certs_dir : string := astranet_dir env +:+ "/certs".

(** [SystemUtils.run_command]. *)
Definition run_command (cmd : string) (sudo capture_output : bool)
  : M (Z * string * string) := λ s,
  let cmd := if sudo && negb (is_root env) then "sudo " +:+ cmd else cmd in
  let after f :=
    {| files := f; config := config s; migrations := migrations s;
       issued := issued s ++ [cmd] |} in
  match spawn (issued s) cmd (files s) with
  | Exited returncode stdout stderr f =>
      if capture_output then (Ret (returncode, stdout, stderr), after f, [])
      else (Ret (returncode, "", ""), after f, [])
  | SpawnFailed text f => (Ret (1, "", text), after f, [])
  | Interrupted f => (Raise KeyboardInterrupt, after f, [])
  end.

(** *** CockroachManager: configuration *)

Definition default_config : gmap string json :=
  list_to_map
    [("sql_port", JInt 26257); ("http_port", JInt 8080);
     ("domain", JStr "astranet.local"); ("cluster_nodes", JArr []);
     ("database_name", JStr "defaultdb"); ("admin_user", JStr "admin");
     ("admin_password", JStr "astranet2026")].

Definition load_config : M json :=
  present ← config_exists;
  if (present : bool) then
    try_except
      (full_config ← json_load;
       py_get full_config "cockroachdb" (JObj default_config))
      (λ e, print (WarnReadConfig e);; mret (JObj default_config))
  else mret (JObj default_config).

(** The directory of [config.json] is the directory of the code, so the
    [mkdir] before the [try] has nothing to create. *)
Definition save_config (config : gmap string json) : M bool :=
  try_except
    (present ← config_exists;
     full_config ← (if (present : bool) then json_load else mret (JObj ∅));
     has_section ← py_contains "cockroachdb" full_config;
     full_config ← (if (has_section : bool) then mret full_config
                    else py_setitem full_config "cockroachdb" (JObj ∅));
     section ← py_getitem full_config "cockroachdb";
     section ← py_update section config;
     (* the update is in place: [full_config] sees the new section *)
     full_config ← py_setitem full_config "cockroachdb" section;
     json_dump full_config;;
     mret true)
    (λ e, print (ErrSaveConfig e);; mret false).

(** *** MigrationManager *)

(** The first line of the output that is a number, else 0.  [int] reads
    every line that [isdigit] accepts ([int_isdigit] below). *)
Fixpoint first_version (lines : list string) : Z :=
  match lines with
  | [] => 0
  | line :: rest =>
      let line := PyStr.strip line in
      if PyStr.isdigit line then default 0 (PyStr.int line)
      else first_version rest
  end.

Definition sql_command (rest : string) : string :=
  cockroach env +:+ " sql --certs-dir=" +:+ certs_dir +:+
  " --host=localhost:" +:+ sql_port env +:+ rest.

Definition get_current_version : M Z :=
  let sql := "SELECT COALESCE(MAX(version), 0) FROM " +:+ db_name env +:+
             ".schema_migrations;" in
  '(returncode, stdout, _) ←
    run_command (sql_command (" -e " +:+ dquote +:+ sql +:+ dquote)) false true;
  if (returncode =? 0) && negb (String.eqb stdout "")
  then mret (first_version (PyStr.split (ascii_of_nat 10) (PyStr.strip stdout)))
  else mret 0.

(** The loop of [get_pending_migrations] over the sorted files. *)
Fixpoint scan_migrations (current_version : Z) (paths : list string)
    (migrations : list (Z * string)) : M (list (Z * string)) :=
  match paths with
  | [] => mret migrations
  | migration_file :: rest =>
      match PyStr.int (version_prefix migration_file) with
      | Some version =>
          if current_version <? version
          then scan_migrations current_version rest
                 (migrations ++ [(version, migration_file)])
          else scan_migrations current_version rest migrations
      | None =>
          print (WarnIgnoredFile migration_file);;
          scan_migrations current_version rest migrations
      end
  end.

Definition by_version (x y : Z * string) : bool := fst x <=? fst y.

Definition get_pending_migrations : M (list (Z * string)) :=
  current_version ← get_current_version;
  print (MsgSchemaVersion current_version);;
  s ← get_state;
  match migrations s with
  | None => print WarnNoMigrationsDir;; mret []
  | Some entries =>
      migrations ←
        scan_migrations current_version
          (py_sorted String.leb (glob_sql entries)) [];
      mret (py_sorted by_version migrations)
  end.

Definition staging_path (version : Z) : string :=
  astranet_dir env +:+ "/migration_" +:+ PyStr.str version +:+ ".sql".

Definition apply_migration (version : Z) (migration_file : string) : M bool :=
  print (MsgApplying version migration_file);;
  sql_content ← read_migration migration_file;
  let temp_sql := staging_path version in
  write_text temp_sql ("USE " +:+ db_name env +:+ ";" +:+ newline +:+ sql_content);;
  try_finally
    ('(returncode, _, stderr) ←
       run_command (sql_command (" < " +:+ temp_sql)) false true;
     if returncode =? 0 then
       print (MsgApplied version);; mret true
     else
       print (ErrApplying version);; print (ErrText stderr);; mret false)
    (present ← path_exists temp_sql;
     if (present : bool) then unlink temp_sql else mret tt).

(** The loop of [migrate]: [break] at the first migration that is not
    applied. *)
Fixpoint migrate_loop (pending : list (Z * string)) : M bool :=
  match pending with
  | [] => mret true
  | (version, migration_file) :: rest =>
      applied ← apply_migration version migration_file;
      if (applied : bool) then migrate_loop rest
      else print (ErrHalting version);; mret false
  end.

Definition migrate : M bool :=
  pending ← get_pending_migrations;
  match pending with
  | [] => print MsgUpToDate;; mret true
  | _ =>
      print (MsgFound (length pending));;
      success ← migrate_loop pending;
      (if (success : bool) then print MsgAllApplied else mret tt);;
      mret success
  end.

(** The numbers [create_migration] takes the maximum of: the prefixes
    that are all digits, as integers. *)
Fixpoint file_numbers (existing_files : list string) : M (list Z) :=
  match existing_files with
  | [] => mret []
  | f :: rest =>
      if PyStr.isdigit (version_prefix f) then
        match PyStr.int (version_prefix f) with
        | Some n => ns ← file_numbers rest; mret (n :: ns)
        | None => raise ValueError
        end
      else file_numbers rest
  end.

Definition create_migration (name : string) : M string :=
  current_version ← get_current_version;
  let next_version := current_version + 1 in
  s ← get_state;
  let existing_files := glob_sql (default [] (migrations s)) in
  next_version ←
    match existing_files with
    | [] => mret next_version
    | _ =>
        numbers ← file_numbers existing_files;
        last_number ← py_max numbers;
        mret (Z.max next_version (last_number + 1))
    end;
  let filename := PyStr.format_03d next_version +:+ "_" +:+ name +:+ ".sql" in
  write_migration filename (template next_version name);;
  print (MsgCreated filename);;
  mret filename.

(** *** CockroachManager: CA server and cluster *)

Definition stop_ca_server : M bool :=
  let pid_file := astranet_dir env +:+ "/ca_server.pid" in
  present ← path_exists pid_file;
  if negb present then
    print WarnCaNotRunning;; mret false
  else
    text ← read_text pid_file;
    let pid := PyStr.strip text in
    print (MsgStoppingCa pid);;
    '(returncode, _, _) ← run_command ("kill " +:+ pid) false true;
    if returncode =? 0 then
      unlink pid_file;; print MsgCaStopped;; mret true
    else
      print ErrStoppingCa;; mret false.

Definition create_database : M bool :=
  print MsgCreateDatabase;;
  '(returncode, _, stderr) ←
    run_command
      (sql_command (" -e " +:+ dquote +:+ "CREATE DATABASE IF NOT EXISTS " +:+
                    db_name env +:+ ";" +:+ dquote)) false true;
  if negb (returncode =? 0) then
    print (ErrCreateDatabase stderr);; mret false
  else
    print MsgDatabaseReady;; migrate.

Definition init_cluster : M bool :=
  print MsgInitializing;;
  try_except
    (print MsgExecInit;;
     '(returncode, stdout, stderr) ←
       run_command (cockroach env +:+ " init --certs-dir=" +:+ certs_dir +:+
                    " --host=localhost:" +:+ sql_port env) false true;
     if returncode =? 0 then
       print MsgInitialized;;
       (if negb (String.eqb stdout "") then print (MsgText (PyStr.strip stdout))
        else mret tt);;
       print MsgBlank;;
       print MsgCreatingDatabase;;
       created ← create_database;
       (if (created : bool) then print MsgDatabaseCreated
        else print WarnDatabaseNotCreated);;
       mret true
     else if PyStr.contains "cluster has already been initialized" stderr then
       print WarnAlreadyInitialized;; mret true
     else
       print ErrInit;; print (ErrText (PyStr.strip stderr));; print HintLogs;;
       mret false)
    (λ e, print (ErrInitException e);; mret false).

End Managers.

(** ** The other operations of the managers *)

(** Lines printed by the operations below, again with the colour of
    their markup. *)
Inductive notice : Type :=
  | StoppingBackend | BackendAlreadyStopped | BackendStopped | BackendStopError
  | StoppingDashboard | DashboardAlreadyStopped | DashboardStopped
  | DashboardStopError
  | CompilePanel | CheckingDeps | InstallingDeps | DepsOk | RunningCargo
  | CompileOk | CompileError
  | GeneratingCa | CaGenerated | CertError (text : string)
  | NoNodeIp | GeneratingNodeCert | SanList (names : string) | NodeCertInfo
  | NodeCertGenerated
  | GeneratingClientCert | ClientCertGenerated | ConvertingKey | KeyConverted
  | KeyConversionError (text : string) | KeyFormatMissing
  | DownloadingCa (url : string) | CaDownloaded | CaDownloadError
  | NoClusterNodes | SearchingCa | TryingUrl (url : string)
  | CaDownloadedFrom (domain : string) | CaNotFound
  | StoppingCockroach | CockroachNotRunning | SendingTerm (pid : string)
  | TermError (text : string) | WaitingShutdown | CockroachStopped
  | ForcingStop | CockroachForced | CockroachStillRunning | ManualKillHint
  | StopException (e : exn)
  | DropCancelled | DroppingDatabase | DatabaseDropped | DropError (text : string).

Definition notice_level (n : notice) : severity :=
  match n with
  | StoppingBackend | StoppingDashboard | GeneratingCa | GeneratingNodeCert
  | GeneratingClientCert | ConvertingKey | DownloadingCa _ | SearchingCa
  | StoppingCockroach | WaitingShutdown | DroppingDatabase | CheckingDeps
  | RunningCargo => Plain
  | SanList _ | NodeCertInfo | TryingUrl _ | SendingTerm _ => Dim
  | CompilePanel => Info
  | BackendStopped | DashboardStopped | CaGenerated | NodeCertGenerated
  | ClientCertGenerated | KeyConverted | CaDownloaded | CaDownloadedFrom _
  | CockroachStopped | CockroachForced | DatabaseDropped | DepsOk
  | CompileOk => Success
  | BackendAlreadyStopped | DashboardAlreadyStopped | KeyConversionError _
  | KeyFormatMissing | NoClusterNodes | CockroachNotRunning | TermError _
  | ForcingStop | ManualKillHint | DropCancelled | InstallingDeps => Warning
  | BackendStopError | DashboardStopError | CertError _ | NoNodeIp
  | CaDownloadError | CaNotFound | CockroachStillRunning | StopException _
  | DropError _ | CompileError => Error
  end.

(** A line of output: one of the operations above, or one of these. *)
Inductive line : Type :=
  | Known (m : message)
  | Note (n : notice).

(** The same monad, printing [line]s. *)
Definition Op (A : Type) : Type := state → result A * state * list line.

#[global] Instance Op_ret : MRet Op := λ A a s, (Ret a, s, []).

#[global] Instance Op_bind : MBind Op := λ A B k m s,
  match m s with
  | (Ret a, s1, o1) => let '(r, s2, o2) := k a s1 in (r, s2, o1 ++ o2)
  | (Raise e, s1, o1) => (Raise e, s1, o1)
  end.

Definition say (n : notice) : Op unit := λ s, (Ret tt, s, [Note n]).

(** An operation of the first kind, run among these. *)
Definition lift {A} (m : M A) : Op A := λ s,
  let '(r, s', o) := m s in (r, s', Known <$> o).

(** [try: body / except Exception as e: handler(e)], for [Op]. *)
Definition try_except_op {A} (body : Op A) (handler : exn → Op A) : Op A := λ s,
  match body s with
  | (Raise e, s1, o1) =>
      if is_Exception e
      then let '(r, s2, o2) := handler e s1 in (r, s2, o1 ++ o2)
      else (Raise e, s1, o1)
  | returned => returned
  end.

(** [sep.join(l)]. *)
Fixpoint py_join (sep : string) (l : list string) : string :=
  match l with
  | [] => ""
  | [x] => x
  | x :: rest => x +:+ sep +:+ py_join sep rest
  end.

(** [x or ""] for an optional string. *)
Definition or_empty (x : option string) : string :=
  match x with
  | Some (String c r) => String c r
  | _ => ""
  end.

(** [f"{x}"] for an optional string. *)
Definition format_optional (x : option string) : string :=
  match x with
  | Some t => t
  | None => "None"
  end.

(** The values the operations below read from the configuration with
    [config.get(key, default)], as they appear in the command lines, and
    the home directory.  Reading them through [load_config] changes
    nothing and is not repeated in the operations; the warning it prints
    for a file that cannot be read would come first in their output. *)
Record node_settings : Type := NodeSettings {
  home_dir : string;
  domain : string;
  cluster_nodes : list string;
  ca_server_port : string
}.

Section MoreManagers.

Variable spawn : list string → string → gmap string string → spawned.
Variable env : settings.
Variable node : node_settings.
(** The answer to [Confirm.ask] in [drop_database]. *)
Variable confirmed : bool.

(** *** CockroachManager: configuration *)

Definition update_config (kwargs : gmap string json) : M bool :=
  config ← load_config;
  config ← py_update config kwargs;
  match config with
  | JObj fields => save_config fields
  | _ => raise AttributeError
  end.

(** *** SystemUtils *)

Definition get_service_pid (pattern : string) : M (option string) :=
  '(returncode, stdout, _) ←
    run_command spawn env ("pgrep -f '" +:+ pattern +:+ "'") false true;
  if (returncode =? 0) && negb (String.eqb (PyStr.strip stdout) "")
  then mret (Some (PyStr.split_head (ascii_of_nat 10) (PyStr.strip stdout)))
  else mret None.

Definition is_port_in_use (port : Z) : M (bool * option string) :=
  '(returncode, stdout, _) ←
    run_command spawn env
      ("lsof -i :" +:+ PyStr.str port +:+ " -t 2>/dev/null | head -1") false true;
  if (returncode =? 0) && negb (String.eqb (PyStr.strip stdout) "")
  then mret (true, Some (PyStr.strip stdout))
  else mret (false, None).

Definition kill_process (pid : string) (force : bool) : M bool :=
  let signal := if force then "-9" else "-15" in
  '(returncode, _, _) ←
    run_command spawn env ("kill " +:+ signal +:+ " " +:+ pid) true true;
  mret (returncode =? 0).

(** *** AstranetManager *)

(** The two entries of the status: running, and the PID or [""]. *)
Definition get_services_status : M ((bool * string) * (bool * string)) :=
  '(backend_running, backend_pid) ← is_port_in_use 3000;
  '(dashboard_running, dashboard_pid) ← is_port_in_use 5173;
  mret ((backend_running, or_empty backend_pid),
        (dashboard_running, or_empty dashboard_pid)).

Definition stop_backend : Op bool :=
  say StoppingBackend;;
  '(running, pid) ← lift (is_port_in_use 3000);
  if negb running then
    say BackendAlreadyStopped;; mret true
  else
    killed ← lift (kill_process (format_optional pid) false);
    if (killed : bool) then say BackendStopped;; mret true
    else say BackendStopError;; mret false.

Definition stop_dashboard : Op bool :=
  say StoppingDashboard;;
  '(running, pid) ← lift (is_port_in_use 5173);
  if negb running then
    say DashboardAlreadyStopped;; mret true
  else
    killed ← lift (kill_process (format_optional pid) false);
    if (killed : bool) then say DashboardStopped;; mret true
    else say DashboardStopError;; mret false.

Definition project_root : string := "/home/corrancho/Astranet".

Definition compile_backend : Op bool :=
  say CompilePanel;;
  say CheckingDeps;;
  '(returncode, _, _) ←
    lift (run_command spawn env "pkg-config --exists tss2-sys" false true);
  (if negb (returncode =? 0) then
     say InstallingDeps;;
     lift (run_command spawn env
             "sudo apt-get update && sudo apt-get install -y libtss2-dev"
             false true);;
     mret tt
   else mret tt);;
  say DepsOk;;
  say RunningCargo;;
  '(returncode, _, _) ←
    lift (run_command spawn env
            ("cd " +:+ project_root +:+ " && cargo build --release --features tpm")
            false false);
  if returncode =? 0 then say CompileOk;; mret true
  else say CompileError;; mret false.

(** *** CockroachManager: the binary and the process *)

Definition cockroach_paths : list string :=
  ["/usr/local/bin/cockroach"; "/usr/bin/cockroach";
   home_dir node +:+ "/bin/cockroach"].

(** [Path(path).exists() and Path(path).is_file()]: [files] holds regular
    files only. *)
Definition is_file (path : string) : M bool := path_exists path.

(** The loop over [cockroach_paths]: the first that is a file. *)
Fixpoint first_file (paths : list string) : M (option string) :=
  match paths with
  | [] => mret None
  | path :: rest =>
      found ← is_file path;
      if (found : bool) then mret (Some path) else first_file rest
  end.

Definition is_cockroach_installed : M bool :=
  found ← first_file cockroach_paths;
  match found with
  | Some _ => mret true
  | None =>
      '(returncode, _, _) ← run_command spawn env "which cockroach" false true;
      mret (returncode =? 0)
  end.

Definition get_cockroach_binary : M string :=
  found ← first_file cockroach_paths;
  match found with
  | Some path => mret path
  | None =>
      '(returncode, stdout, _) ← run_command spawn env "which cockroach" false true;
      if returncode =? 0 then mret (PyStr.strip stdout) else mret "cockroach"
  end.

Definition is_cockroach_running : M (bool * string) :=
  '(returncode, stdout, _) ←
    run_command spawn env
      "ps aux | grep 'cockroach start' | grep -v grep | awk '{print $2}' | head -1"
      false true;
  if (returncode =? 0) && negb (String.eqb (PyStr.strip stdout) "") then
    let pid := PyStr.strip stdout in
    '(check_returncode, _, _) ←
      run_command spawn env ("ps -p " +:+ pid +:+ " > /dev/null 2>&1") false true;
    if check_returncode =? 0 then mret (true, pid) else mret (false, "")
  else mret (false, "").

(** [time.sleep] changes nothing that the operations see; what the world
    does meanwhile is in the answers of [spawn]. *)
Definition stop_cockroach : Op bool :=
  say StoppingCockroach;;
  try_except_op
    ('(running, pid) ← lift is_cockroach_running;
     if negb running then
       say CockroachNotRunning;; mret true
     else
       say (SendingTerm pid);;
       '(returncode, _, stderr) ←
         lift (run_command spawn env ("kill -TERM " +:+ pid) false true);
       (if negb (returncode =? 0) then say (TermError (PyStr.strip stderr))
        else mret tt);;
       say WaitingShutdown;;
       '(running, _) ← lift is_cockroach_running;
       if negb running then
         say CockroachStopped;; mret true
       else
         say ForcingStop;;
         lift (run_command spawn env "pkill -9 -f 'cockroach start'" false true);;
         '(running, _) ← lift is_cockroach_running;
         if negb running then
           say CockroachForced;; mret true
         else
           say CockroachStillRunning;; say ManualKillHint;; mret false)
    (λ e, say (StopException e);; mret false).

Definition host_ip_command : string := "hostname -I | awk '{print $1}'".

(** *** CockroachManager: certificates *)

(** The directories under [~/.astranet] exist, so
    [certs_dir.mkdir(parents=True, exist_ok=True)] has nothing to do. *)

Definition create_ca_cert : Op bool :=
  say GeneratingCa;;
  cockroach ← lift get_cockroach_binary;
  '(returncode, _, stderr) ←
    lift (run_command spawn env
            (cockroach +:+ " cert create-ca --certs-dir=" +:+ certs_dir env +:+
             " --ca-key=" +:+ certs_dir env +:+ "/ca.key") false false);
  if returncode =? 0 then say CaGenerated;; mret true
  else say (CertError stderr);; mret false.

Definition download_ca_cert (url : string) : Op bool :=
  say (DownloadingCa url);;
  '(returncode, _, _) ←
    lift (run_command spawn env
            ("wget -q " +:+ url +:+ " -O " +:+ certs_dir env +:+ "/ca.crt")
            false true);
  present ← lift (path_exists (certs_dir env +:+ "/ca.crt"));
  if (returncode =? 0) && present then say CaDownloaded;; mret true
  else say CaDownloadError;; mret false.

Definition create_node_cert : Op bool :=
  '(returncode, stdout, _) ← lift (run_command spawn env host_ip_command false true);
  if negb (returncode =? 0) then
    say NoNodeIp;; mret false
  else
    let ip := PyStr.strip stdout in
    let san_list := ["localhost"; "127.0.0.1"; ip; domain node] in
    let san_string := py_join " " san_list in
    say GeneratingNodeCert;;
    say (SanList san_string);;
    say NodeCertInfo;;
    cockroach ← lift get_cockroach_binary;
    '(returncode, _, stderr) ←
      lift (run_command spawn env
              (cockroach +:+ " cert create-node " +:+ san_string +:+
               " --certs-dir=" +:+ certs_dir env +:+
               " --ca-key=" +:+ certs_dir env +:+ "/ca.key") false false);
    if returncode =? 0 then say NodeCertGenerated;; mret true
    else say (CertError stderr);; mret false.

Definition create_client_cert : Op bool :=
  say GeneratingClientCert;;
  cockroach ← lift get_cockroach_binary;
  '(returncode, _, stderr) ←
    lift (run_command spawn env
            (cockroach +:+ " cert create-client root --certs-dir=" +:+
             certs_dir env +:+ " --ca-key=" +:+ certs_dir env +:+ "/ca.key")
            false false);
  if returncode =? 0 then
    say ClientCertGenerated;;
    say ConvertingKey;;
    let client_key := certs_dir env +:+ "/client.root.key" in
    let client_pk8_key := certs_dir env +:+ "/client.root.pk8.key" in
    '(returncode_conv, _, stderr_conv) ←
      lift (run_command spawn env
              ("openssl pkcs8 -topk8 -inform PEM -outform PEM -nocrypt -in " +:+
               client_key +:+ " -out " +:+ client_pk8_key) false true);
    if returncode_conv =? 0 then say KeyConverted;; mret true
    else say (KeyConversionError stderr_conv);; say KeyFormatMissing;; mret false
  else say (CertError stderr);; mret false.



(** *** CockroachManager: the database *)

Definition drop_database : Op bool :=
  if negb confirmed then
    say DropCancelled;; mret false
  else
    cockroach ← lift get_cockroach_binary;
    say DroppingDatabase;;
    '(returncode, _, stderr) ←
      lift (run_command spawn env
              (cockroach +:+ " sql --certs-dir=" +:+ certs_dir env +:+
               " --host=localhost:" +:+ sql_port env +:+ " --execute=" +:+
               dquote +:+ "DROP DATABASE IF EXISTS " +:+ db_name env +:+
               " CASCADE;" +:+ dquote) false true);
    if returncode =? 0 then say DatabaseDropped;; mret true
    else say (DropError stderr);; mret false.

End MoreManagers.

(** ** Reading a run off its output *)

(** The version a file name carries, as [get_pending_migrations] reads it. *)
Definition parsed_version (name : string) : option Z :=
  PyStr.int (version_prefix name).

(** The migrations whose application was started, in order. *)
Definition attempted (out : list message) : list (Z * string) :=
  omap (λ m, match m with MsgApplying v f => Some (v, f) | _ => None end) out.

(** The versions reported as applied, in order. *)
Definition applied (out : list message) : list Z :=
  omap (λ m, match m with MsgApplied v => Some v | _ => None end) out.

(** The versions reported as failed. *)
Definition failed (out : list message) : list Z :=
  omap (λ m, match m with ErrApplying v => Some v | _ => None end) out.

(** The versions at which a run reported that it stops. *)
Definition halted (out : list message) : list Z :=
  omap (λ m, match m with ErrHalting v => Some v | _ => None end) out.


(** The state after the commands [cmds] have run and left the files [f']. *)
Definition state_after (s : state) (f' : gmap string string) (cmds : list string)
  : state :=
  {| files := f'; config := config s; migrations := migrations s;
     issued := issued s ++ cmds |}.

(** A command that only looks at the processes. *)
Definition probe (cmd : string) : bool := String.prefix "ps " cmd.

(** The commands of a run that are not probes. *)
Definition signals (cmds : list string) : list string :=
  filter (λ c, probe c = false) cmds.



(** The top-level section [name] of the configuration document on disk. *)
Definition section_of (c : config_file) (name : string) : option json :=
  match c with
  | Json (JObj doc) => doc !! name
  | _ => None
  end.

(** The field [key] of the [cockroachdb] section on disk. *)
Definition stored_field (c : config_file) (key : string) : option json :=
  match section_of c "cockroachdb" with
  | Some (JObj fields) => fields !! key
  | _ => None
  end.



(** The number [create_migration] reads off a file name: the prefix as an
    integer when it is all digits. *)
Definition numbered (f : string) : option Z :=
  if PyStr.isdigit (version_prefix f) then PyStr.int (version_prefix f) else None.

(** The document [save_config] writes for the update [upd], when it
    succeeds: the file is absent, or holds an object whose [cockroachdb]
    section is absent or an object. *)
Definition merged (upd : gmap string json) (c : config_file) : option json :=
  match c with
  | NoFile =>
      Some (JObj (<["cockroachdb" := JObj (upd ∪ ∅)]> (<["cockroachdb" := JObj ∅]> ∅)))
  | Json (JObj doc) =>
      match doc !! "cockroachdb" with
      | None =>
          Some (JObj (<["cockroachdb" := JObj (upd ∪ ∅)]>
                        (<["cockroachdb" := JObj ∅]> doc)))
      | Some (JObj fields) => Some (JObj (<["cockroachdb" := JObj (upd ∪ fields)]> doc))
      | Some _ => None
      end
  | _ => None
  end.

(** ** Sample hosts *)

Definition sample_env : settings :=
  {| is_root := true; astranet_dir := "/root/.astranet";
     cockroach := "/usr/local/bin/cockroach"; sql_port := "26257";
     db_name := "astranetdb" |}.

Definition sample_template (v : Z) (name : string) : string :=
  "-- Migracion " +:+ PyStr.format_03d v +:+ ": " +:+ name.

(** A database at schema version 0 that accepts every statement. *)
Definition calm_spawn (_ : list string) (cmd : string) (f : gmap string string)
  : spawned :=
  if PyStr.contains "SELECT COALESCE" cmd
  then Exited 0 ("max" +:+ newline +:+ "0" +:+ newline) "" f
  else Exited 0 "" "" f.

(** The same database, rejecting the statements of migration 2. *)
Definition spawn_rejecting_2 (_ : list string) (cmd : string)
    (f : gmap string string) : spawned :=
  if PyStr.contains "SELECT COALESCE" cmd
  then Exited 0 ("max" +:+ newline +:+ "0" +:+ newline) "" f
  else if PyStr.contains "migration_2.sql" cmd
  then Exited 1 "" "ERROR: syntax error" f
  else Exited 0 "" "" f.

(** A host with the named migration files and nothing else. *)
Definition host (names : list string) : state :=
  {| files := ∅; config := NoFile;
     migrations := Some ((λ n, (n, Some "SELECT 1;")) <$> names);
     issued := [] |}.

(** A host whose configuration file holds [doc]. *)
Definition configured (doc : gmap string json) : state :=
  {| files := ∅; config := Json (JObj doc); migrations := None; issued := [] |}.

(** A stored cluster section with two fields, next to a section of another
    tool. *)
Definition two_sections : gmap string json :=
  <["cockroachdb" := JObj (<["domain" := JStr "node1.local"]> {["sql_port" := JInt 26000]})]>
    {["docker" := JObj {["compose" := JBool true]}]}.


(** A host whose configuration file is not JSON. *)
Definition corrupted : state :=
  {| files := ∅; config := NotJson; migrations := None; issued := [] |}.


(** An update of one field. *)
Definition new_domain : gmap string json := {["domain" := JStr "node2.local"]}.

Definition three_migrations : list string :=
  ["001_init.sql"; "002_users.sql"; "003_roles.sql"].

(** The state after the version query on a sample host. *)
Definition queried (names : list string) : state :=
  (get_current_version calm_spawn sample_env (host names)).1.2.


(** A host where process 4242 holds every port and matches every
    pattern, and no signal ends it. *)
Definition busy_spawn (_ : list string) (cmd : string) (f : gmap string string)
  : spawned :=
  if String.prefix "lsof " cmd || String.prefix "pgrep " cmd ||
     String.prefix "ps aux" cmd
  then Exited 0 ("4242" +:+ newline) "" f
  else Exited 0 "" "" f.

(** A host where every command exits with status 1 and says why. *)
Definition failing_spawn (_ : list string) (_ : string) (f : gmap string string)
  : spawned :=
  Exited 1 "" "ERROR: permission denied" f.

(** A host that knows its address. *)
Definition addressed_spawn (_ : list string) (cmd : string)
    (f : gmap string string) : spawned :=
  if String.prefix "hostname " cmd
  then Exited 0 ("10.0.0.5 " +:+ newline) "" f
  else Exited 0 "" "" f.

Definition sample_node : node_settings :=
  {| home_dir := "/root"; domain := "node1.local";
     cluster_nodes := ["node2.local:26257"; "node3.local"];
     ca_server_port := "8443" |}.

(** A host with the binary at its first standard place. *)
Definition installed : state :=
  set_files {["/usr/local/bin/cockroach" := "ELF"]} (host []).

(** A host with the PID file of a CA server. *)
Definition serving_ca : state :=
  set_files {["/root/.astranet/ca_server.pid" := "4242" +:+ newline]} (host []).

(** A configuration whose cluster section is a list. *)
Definition list_section : gmap string json :=
  {["cockroachdb" := JArr [JStr "node1.local"]]}.

(** An update of another field. *)
Definition new_port : gmap string json := {["sql_port" := JInt 26258]}.

(** A host that holds a CA certificate. *)
Definition trusting : state :=
  set_files {["/root/.astranet/certs/ca.crt" := "PEM"]} (host []).

(** * Properties *)

(** ** Sorting *)

Section Sorting.

Context {A : Type} (leb : A → A → bool).


Hypothesis leb_total : ∀ x y, leb x y = true ∨ leb y x = true.







End Sorting.

(** Paths compare as their names, by code point. *)
Lemma ascii_compare_trans (a b c : ascii) :
  Ascii.compare a b ≠ Gt → Ascii.compare b c ≠ Gt → Ascii.compare a c ≠ Gt.
Proof.
  unfold Ascii.compare. rewrite !N.compare_le_iff. lia.
Qed.




(** ** Python primitives on sample inputs *)

Example int_padded : PyStr.int "001" = Some 1.
Proof. reflexivity. Qed.
Example int_signed : PyStr.int "-5" = Some (-5) ∧ PyStr.int "+7" = Some 7.
Proof. by split. Qed.
Example int_spaces : PyStr.int " 12" = Some 12.
Proof. reflexivity. Qed.
Example int_rejects :
  PyStr.int "bad" = None ∧ PyStr.int "" = None ∧ PyStr.int "-" = None ∧
  PyStr.int "12a" = None.
Proof. by split_and!. Qed.
Example isdigit_signed : PyStr.isdigit "-5" = false ∧ PyStr.isdigit "005" = true.
Proof. by split. Qed.
Example format_03d_pads :
  PyStr.format_03d 2 = "002" ∧ PyStr.format_03d 1234 = "1234".
Proof. by vm_compute. Qed.
Example version_prefix_of_names :
  version_prefix "001_init.sql" = "001" ∧ version_prefix "bad_name.sql" = "bad" ∧
  version_prefix "notes.sql" = "notes".
Proof. by vm_compute. Qed.
Example sorted_is_stable :
  py_sorted by_version [(2, "b"); (1, "x"); (2, "a"); (1, "y")]
    = [(1, "x"); (1, "y"); (2, "b"); (2, "a")].
Proof. reflexivity. Qed.

(** ** Strings of digits *)

Lemma is_digit_facts c :
  PyStr.is_digit c = true →
  PyStr.is_space c = false ∧ Ascii.eqb c "_" = false ∧
  Ascii.eqb c "-" = false ∧ Ascii.eqb c "+" = false ∧ 0 ≤ PyStr.digit_val c.
Proof.
  destruct c as [[] [] [] [] [] [] [] []]; try (intros; discriminate);
    intros _; by vm_compute.
Qed.

Lemma lstrip_digits s : PyStr.all_digits s = true → PyStr.lstrip s = s.
Proof.
  destruct s as [|c s]; [done|]. simpl. intros [Hc _]%andb_true_iff.
  apply is_digit_facts in Hc as (-> & _). done.
Qed.

Lemma rstrip_digits s : PyStr.all_digits s = true → PyStr.rstrip s = s.
Proof.
  induction s as [|c s IH]; [done|]. simpl. intros [Hc Hs]%andb_true_iff.
  rewrite (IH Hs). apply is_digit_facts in Hc as (-> & _). by destruct s.
Qed.

Lemma int_digits_all_digits s acc b :
  PyStr.all_digits s = true → 0 ≤ acc → b = true ∨ s ≠ "" →
  ∃ n, PyStr.int_digits acc b s = Some n ∧ 0 ≤ n.
Proof.
  revert acc b. induction s as [|c s IH]; intros acc b Hs Hacc Hb; simpl.
  - destruct Hb as [-> | ?]; [by exists acc|done].
  - simpl in Hs. apply andb_true_iff in Hs as [Hc Hs].
    destruct (is_digit_facts c Hc) as (_ & -> & _ & _ & Hv). rewrite Hc.
    apply IH; [done|lia|by left].
Qed.

(** [int] accepts every string that [isdigit] accepts. *)
Lemma int_isdigit p :
  PyStr.isdigit p = true → ∃ n, PyStr.int p = Some n ∧ 0 ≤ n.
Proof.
  destruct p as [|c p]; [done|]. intros Hp. change (PyStr.all_digits (String c p) = true) in Hp.
  unfold PyStr.int, PyStr.strip. rewrite lstrip_digits, rstrip_digits by done.
  assert (PyStr.is_digit c = true) as Hc by (simpl in Hp; by apply andb_true_iff in Hp as [? _]).
  assert (match String c p with
          | String "-" r => Z.opp <$> PyStr.int_digits 0 false r
          | String "+" r => PyStr.int_digits 0 false r
          | t => PyStr.int_digits 0 false t
          end = PyStr.int_digits 0 false (String c p)) as ->.
  { destruct c as [[] [] [] [] [] [] [] []]; try reflexivity; discriminate Hc. }
  apply int_digits_all_digits; [done|lia|by right].
Qed.

(** ** The name of a new migration file *)

Lemma all_digits_app a b :
  PyStr.all_digits (a +:+ b) = PyStr.all_digits a && PyStr.all_digits b.
Proof.
  induction a as [|c a IH]; [done|]. simpl. by rewrite IH, andb_assoc.
Qed.

Lemma pretty_N_char_digit y :
  (y < 10)%N →
  PyStr.is_digit (pretty_N_char y) = true ∧
  PyStr.digit_val (pretty_N_char y) = Z.of_N y.
Proof.
  intros Hy.
  assert (y = 0 ∨ y = 1 ∨ y = 2 ∨ y = 3 ∨ y = 4 ∨ y = 5 ∨ y = 6 ∨ y = 7 ∨
          y = 8 ∨ y = 9)%N as Hcases by lia.
  repeat (destruct Hcases as [-> | Hcases]; [by vm_compute|]).
  subst. by vm_compute.
Qed.

Lemma pretty_N_go_digits x s :
  PyStr.all_digits s = true → PyStr.all_digits (pretty_N_go x s) = true.
Proof.
  revert s. induction (N.lt_wf_0 x) as [x _ IH]; intros s Hs.
  destruct (decide (x = 0)%N) as [-> | Hx]; [by rewrite pretty_N_go_0|].
  rewrite pretty_N_go_step by lia.
  apply IH; [apply N.div_lt; lia|]. simpl.
  destruct (pretty_N_char_digit (x `mod` 10)) as [-> _]; [|done].
  apply N.mod_lt. lia.
Qed.

(** Reading back the digits that [pretty] writes in front of [s]. *)
Lemma int_digits_pretty_N_go x acc b s :
  (0 < x)%N →
  ∃ acc', PyStr.int_digits acc b (pretty_N_go x s) = PyStr.int_digits acc' true s ∧
          (acc = 0 → acc' = Z.of_N x).
Proof.
  revert acc b s. induction (N.lt_wf_0 x) as [x _ IH]; intros acc b s Hx.
  rewrite pretty_N_go_step by done.
  assert (x `mod` 10 < 10)%N as Hmod by (apply N.mod_lt; lia).
  destruct (pretty_N_char_digit _ Hmod) as [Hd Hv].
  destruct (is_digit_facts _ Hd) as (_ & Hu & _).
  destruct (decide (x `div` 10 = 0)%N) as [Hz | Hnz].
  - rewrite Hz, pretty_N_go_0. simpl. rewrite Hu, Hd, Hv.
    eexists. split; [done|]. intros ->.
    pose proof (N.div_mod x 10). lia.
  - destruct (IH (x `div` 10)%N) with (acc := acc) (b := b)
        (s := String (pretty_N_char (x `mod` 10)) s)
      as (acc' & -> & Hacc'); [apply N.div_lt; lia|by apply N.neq_0_lt_0|].
    simpl. rewrite Hu, Hd, Hv. eexists. split; [done|]. intros ->.
    rewrite Hacc' by done. pose proof (N.div_mod x 10). lia.
Qed.

Lemma pretty_N_digits (n : N) :
  PyStr.all_digits (pretty n) = true ∧ pretty n ≠ "" ∧
  ∀ b, PyStr.int_digits 0 b (pretty n) = Some (Z.of_N n).
Proof.
  unfold pretty, pretty_N. case_decide as Hn.
  - subst. by split_and!.
  - split_and!.
    + by apply pretty_N_go_digits.
    + intros Hempty.
      destruct (int_digits_pretty_N_go n 0 false "") as (acc' & Heq & _); [lia|].
      rewrite Hempty in Heq. done.
    + intros b.
      destruct (int_digits_pretty_N_go n 0 b "") as (acc' & -> & Hacc); [lia|].
      simpl. by rewrite Hacc.
Qed.

Lemma zeros_digits k t b :
  PyStr.all_digits (PyStr.zeros k +:+ t) = PyStr.all_digits t ∧
  PyStr.int_digits 0 b (PyStr.zeros k +:+ t)
    = PyStr.int_digits 0 (b || negb (k =? 0)%nat) t.
Proof.
  revert b. induction k as [|k IH]; intros b.
  - simpl. by rewrite orb_false_r.
  - destruct (IH true) as [Ha Hi]. split; [exact Ha|].
    change (PyStr.int_digits 0 b (PyStr.zeros (S k) +:+ t))
      with (PyStr.int_digits 0 true (PyStr.zeros k +:+ t)).
    rewrite Hi. simpl. by rewrite orb_true_r.
Qed.

Lemma isdigit_iff s :
  PyStr.isdigit s = true ↔ PyStr.all_digits s = true ∧ s ≠ "".
Proof. destruct s; simpl; [|split; [done|tauto]]. split; [done|tauto]. Qed.

(** [f"{v:03d}"] is a string of digits that [int] reads back as [v]. *)
Lemma format_03d_digits v :
  0 ≤ v →
  PyStr.isdigit (PyStr.format_03d v) = true ∧
  PyStr.int (PyStr.format_03d v) = Some v.
Proof.
  intros Hv. unfold PyStr.format_03d, PyStr.zfill.
  destruct (v <? 0) eqn:Hneg; [apply Z.ltb_lt in Hneg; lia|].
  destruct (pretty_N_digits (Z.to_N v)) as (Hd & Hne & Hint).
  set (k := (3 - String.length (pretty (Z.to_N v)))%nat).
  destruct (zeros_digits k (pretty (Z.to_N v)) false) as [Ha Hi].
  assert (PyStr.isdigit (PyStr.zeros k +:+ pretty (Z.to_N v)) = true) as Hdig.
  { apply isdigit_iff. split; [by rewrite Ha|].
    destruct k; simpl; [done|discriminate]. }
  split; [done|].
  destruct (int_isdigit _ Hdig) as (n & Hn & _).
  unfold PyStr.int, PyStr.strip in *.
  rewrite lstrip_digits, rstrip_digits in * by (by rewrite Ha).
  destruct (PyStr.zeros k +:+ pretty (Z.to_N v)) as [|c r] eqn:Hs; [done|].
  assert (PyStr.is_digit c = true) as Hc.
  { rewrite <- Ha, <- Hs in Hd. rewrite Hs in Hd. simpl in Hd.
    by apply andb_true_iff in Hd as [? _]. }
  assert (match String c r with
          | String "-" r' => Z.opp <$> PyStr.int_digits 0 false r'
          | String "+" r' => PyStr.int_digits 0 false r'
          | t => PyStr.int_digits 0 false t
          end = PyStr.int_digits 0 false (String c r)) as ->.
  { destruct c as [[] [] [] [] [] [] [] []]; try reflexivity; discriminate Hc. }
  rewrite Hi, Hint. f_equal. lia.
Qed.

Lemma rfind_dot_sql x :
  PyStr.rfind "." (x +:+ ".sql") = Some (String.length x).
Proof.
  induction x as [|c x IH]; [done|].
  change (PyStr.rfind "." (String c x +:+ ".sql"))
    with (match PyStr.rfind "." (x +:+ ".sql") with
          | Some i => Some (S i)
          | None => if Ascii.eqb c "." then Some O else None
          end).
  by rewrite IH.
Qed.

Lemma substring_prefix x y : substring 0 (String.length x) (x +:+ y) = x.
Proof.
  induction x as [|c x IH]; simpl; [by destruct y|]. by rewrite IH.
Qed.

Lemma length_append x y :
  String.length (x +:+ y) = (String.length x + String.length y)%nat.
Proof. induction x as [|c x IH]; simpl; [done|]. by rewrite IH. Qed.

Lemma string_app_assoc x y z : (x +:+ y) +:+ z = x +:+ y +:+ z.
Proof. induction x as [|c x IH]; [done|]. exact (f_equal (String c) IH). Qed.

Lemma stem_sql x : x ≠ "" → stem (x +:+ ".sql") = x.
Proof.
  intros Hx. unfold stem. rewrite rfind_dot_sql, length_append.
  destruct x as [|c x]; [done|].
  assert ((0 <? String.length (String c x))%nat = true) as ->
    by (apply Nat.ltb_lt; simpl; lia).
  assert ((String.length (String c x)
           <? String.length (String c x) + String.length ".sql" - 1)%nat = true) as ->
    by (apply Nat.ltb_lt; simpl; lia).
  apply substring_prefix.
Qed.

Lemma split_head_digits d rest :
  PyStr.all_digits d = true → PyStr.split_head "_" (d +:+ "_" +:+ rest) = d.
Proof.
  induction d as [|c d IH]; [done|]. simpl. intros [Hc Hd]%andb_true_iff.
  destruct (is_digit_facts _ Hc) as (_ & -> & _). by rewrite IH.
Qed.

(** The version that the name of a new migration file carries is the one it
    was made from, for [create_migration] and for
    [get_pending_migrations] alike. *)
Lemma new_file_version v name :
  0 ≤ v →
  let filename := PyStr.format_03d v +:+ "_" +:+ name +:+ ".sql" in
  numbered filename = Some v ∧ parsed_version filename = Some v.
Proof.
  intros Hv filename. destruct (format_03d_digits v Hv) as [Hd Hi].
  assert (version_prefix filename = PyStr.format_03d v) as Hp.
  { unfold version_prefix, filename.
    replace (PyStr.format_03d v +:+ "_" +:+ name +:+ ".sql")
      with ((PyStr.format_03d v +:+ "_" +:+ name) +:+ ".sql").
    - rewrite stem_sql.
      + apply split_head_digits. unfold PyStr.isdigit in Hd.
        by destruct (PyStr.format_03d v).
      + unfold PyStr.isdigit in Hd. by destruct (PyStr.format_03d v).
    - by rewrite !string_app_assoc. }
  unfold numbered, parsed_version. by rewrite Hp, Hd, Hi.
Qed.

(** ** The managers *)

Section Properties.

Variable spawn : list string → string → gmap string string → spawned.
Variable env : settings.
Variable template : Z → string → string.


(** A command prints nothing and leaves the configuration and the
    migrations directory alone. *)
Lemma run_command_frame cmd sudo capture s :
  ∃ r s', run_command spawn env cmd sudo capture s = (r, s', []) ∧
    config s' = config s ∧ migrations s' = migrations s ∧
    ∃ line, issued s' = issued s ++ [line].
Proof.
  unfold run_command.
  destruct (spawn _ _ _); destruct capture; eauto 10.
Qed.

Lemma get_current_version_frame s :
  ∃ r s', get_current_version spawn env s = (r, s', []) ∧
    config s' = config s ∧ migrations s' = migrations s.
Proof.
  unfold get_current_version, mbind, M_bind.
  destruct (run_command_frame
    (sql_command env (" -e " +:+ dquote +:+
       ("SELECT COALESCE(MAX(version), 0) FROM " +:+ db_name env +:+
        ".schema_migrations;") +:+ dquote)) false true s)
    as (r & s' & -> & Hc & Hm & _).
  destruct r as [[[rc out] err]|e]; [|eauto].
  destruct (_ && _); simpl; eauto.
Qed.

Lemma first_version_nonneg lines : 0 ≤ first_version lines.
Proof.
  induction lines as [|line lines IH]; simpl; [lia|].
  destruct (PyStr.isdigit (PyStr.strip line)) eqn:Hd; [|done].
  by destruct (int_isdigit _ Hd) as (n & -> & Hn).
Qed.

(** The tracked version is never negative. *)
Lemma get_current_version_nonneg s cur s1 o1 :
  get_current_version spawn env s = (Ret cur, s1, o1) → 0 ≤ cur.
Proof.
  unfold get_current_version, mbind, M_bind.
  destruct (run_command _ _ _ _ _ s) as [[[[[rc out] err]|e] s'] o]; [|done].
  destruct (_ && _); intros [= <- _ _]; [apply first_version_nonneg|lia].
Qed.














(** *** One migration *)

(** What [apply_migration] does, case by case: the text of the migration is
    staged, the command runs on the files with the staging file in place,
    and the staging file is gone from whatever files the command left. *)
Lemma apply_migration_eq v f s :
  apply_migration spawn env v f s =
    match migrations s ≫= entry_text f with
    | None => (Raise OSError, s, [MsgApplying v f])
    | Some text =>
        let temp_sql := staging_path env v in
        let cmd := sql_command env (" < " +:+ temp_sql) in
        let staged :=
          <[temp_sql := "USE " +:+ db_name env +:+ ";" +:+ newline +:+ text]> (files s) in
        let after f' :=
          {| files := delete temp_sql f'; config := config s;
             migrations := migrations s; issued := issued s ++ [cmd] |} in
        match spawn (issued s) cmd staged with
        | Exited returncode _ stderr f' =>
            if returncode =? 0
            then (Ret true, after f', [MsgApplying v f; MsgApplied v])
            else (Ret false, after f', [MsgApplying v f; ErrApplying v; ErrText stderr])
        | SpawnFailed text f' =>
            (Ret false, after f', [MsgApplying v f; ErrApplying v; ErrText text])
        | Interrupted f' => (Raise KeyboardInterrupt, after f', [MsgApplying v f])
        end
    end.
Proof.
  destruct (migrations s ≫= entry_text f) as [text|] eqn:Ht;
    unfold apply_migration, read_migration, write_text, try_finally, run_command,
      path_exists, unlink, print, get_state, put_state, mbind, M_bind, mret, M_ret
      in *;
    simpl in *; rewrite Ht; [|done]. simpl.
  destruct (spawn _ _ _) as [rc out err f'|text' f'|f']; simpl.
  - destruct (rc =? 0); simpl;
      destruct (f' !! staging_path env v) eqn:Hl; simpl;
      rewrite ?Hl; simpl; try done;
      unfold set_files; simpl; by rewrite (delete_id _ _ Hl).
  - destruct (f' !! staging_path env v) eqn:Hl; simpl;
      rewrite ?Hl; simpl; try done;
      unfold set_files; simpl; by rewrite (delete_id _ _ Hl).
  - destruct (f' !! staging_path env v) eqn:Hl; simpl;
      rewrite ?Hl; simpl; try done;
      unfold set_files; simpl; by rewrite (delete_id _ _ Hl).
Qed.

(** C6.  [apply_migration] stages the statements of the migration in the
    staging file before the command runs (the command runs on the files
    with the staging file in place), and on every exit of the execution,
    whether the command succeeds, exits with a failure status, cannot be
    started, or is interrupted by an exception, the staging file no longer
    exists when [apply_migration] returns or raises. *)
Theorem apply_migration_staging_removed v f s :
  let temp_sql := staging_path env v in
  let cmd := sql_command env (" < " +:+ temp_sql) in
  match migrations s ≫= entry_text f with
  | Some text =>
      let staged :=
        <[temp_sql := "USE " +:+ db_name env +:+ ";" +:+ newline +:+ text]> (files s) in
      ∃ r s' out,
        apply_migration spawn env v f s = (r, s', out) ∧
        issued s' = issued s ++ [cmd] ∧
        files s' !! temp_sql = None ∧
        match spawn (issued s) cmd staged with
        | Exited returncode _ _ f' =>
            r = Ret (returncode =? 0) ∧ files s' = delete temp_sql f'
        | SpawnFailed _ f' => r = Ret false ∧ files s' = delete temp_sql f'
        | Interrupted f' =>
            r = Raise KeyboardInterrupt ∧ files s' = delete temp_sql f'
        end
  | None =>
      apply_migration spawn env v f s = (Raise OSError, s, [MsgApplying v f])
  end.
Proof.
  intros temp_sql cmd. rewrite apply_migration_eq.
  destruct (migrations s ≫= entry_text f) as [text|]; [|done].
  fold temp_sql. fold cmd. cbv zeta.
  destruct (spawn _ _ _) as [rc out err f'|text' f'|f'].
  - destruct (rc =? 0); eexists _, _, _; split_and!; try done;
      simpl; apply lookup_delete_eq.
  - eexists _, _, _; split_and!; try done. simpl. apply lookup_delete_eq.
  - eexists _, _, _; split_and!; try done. simpl. apply lookup_delete_eq.
Qed.

(** *** A run of migrations *)








(** *** The configuration store *)

Lemma load_config_eq s :
  load_config s =
    match config s with
    | NoFile => (Ret (JObj default_config), s, [])
    | Unreadable => (Ret (JObj default_config), s, [WarnReadConfig OSError])
    | NotJson => (Ret (JObj default_config), s, [WarnReadConfig JSONDecodeError])
    | Json (JObj doc) =>
        (Ret (default (JObj default_config) (doc !! "cockroachdb")), s, [])
    | Json _ => (Ret (JObj default_config), s, [WarnReadConfig AttributeError])
    end.
Proof.
  unfold load_config, config_exists, try_except, json_load, py_get, print, raise,
    get_state, mbind, M_bind, mret, M_ret.
  destruct (config s) as [| | |[]] eqn:Hc; cbn -[default_config];
    rewrite ?Hc; reflexivity.
Qed.

Lemma save_config_ok upd s doc :
  merged upd (config s) = Some doc →
  save_config upd s = (Ret true, set_config (Json doc) s, []).
Proof.
  unfold merged, save_config, config_exists, try_except, json_load, json_dump,
    py_contains, py_setitem, py_getitem, py_update, print, raise,
    get_state, put_state, mbind, M_bind, mret, M_ret.
  destruct (config s) as [| | |[| | | | | |d]] eqn:Hc; try done.
  - intros [= <-].
    do 4 (cbn; rewrite ?Hc, ?lookup_empty, ?lookup_insert_eq). done.
  - destruct (d !! "cockroachdb") as [[| | | | | |fields]|] eqn:Hd; try done;
      intros [= <-];
      do 4 (cbn; rewrite ?Hc, ?Hd, ?lookup_insert_eq); done.
Qed.

Lemma save_config_fail upd s :
  merged upd (config s) = None →
  ∃ e, save_config upd s = (Ret false, s, [ErrSaveConfig e]).
Proof.
  unfold merged, save_config, config_exists, try_except, json_load, json_dump,
    py_contains, py_setitem, py_getitem, py_update, print, raise,
    get_state, put_state, mbind, M_bind, mret, M_ret.
  destruct (config s) as [| | |[| | | |text|items|d]] eqn:Hc; try done; intros Hm;
    do 3 (cbn; rewrite ?Hc); try (by eexists).
  - destruct (PyStr.contains _ _); cbn; by eexists.
  - destruct (existsb _ _); cbn; by eexists.
  - destruct (d !! "cockroachdb") as [[]|] eqn:Hd; try done;
      do 4 (cbn; rewrite ?Hd); by eexists.
Qed.

(** The document written on success: the cluster section is the stored one
    overridden by the update, every other section is as it was. *)
Lemma merged_spec upd c doc :
  merged upd c = Some doc →
  ∃ d' fields,
    doc = JObj d' ∧
    d' !! "cockroachdb" = Some (JObj (upd ∪ fields)) ∧
    (∀ name, name ≠ "cockroachdb" → d' !! name = section_of c name) ∧
    (∀ key, stored_field c key = fields !! key).
Proof.
  unfold merged, stored_field, section_of.
  destruct c as [| | |[| | | | | |d]]; try done.
  - intros [= <-]. eexists _, ∅. split_and!; [done|apply lookup_insert_eq| |done].
    intros name Hne. by rewrite !lookup_insert_ne.
  - destruct (d !! "cockroachdb") as [[| | | | | |fields]|] eqn:Hd; try done.
    + intros [= <-]. eexists _, fields.
      split_and!; [done|apply lookup_insert_eq| |done].
      intros name Hne. by rewrite lookup_insert_ne.
    + intros [= <-]. eexists _, ∅.
      split_and!; [done|apply lookup_insert_eq| |done].
      intros name Hne. by rewrite !lookup_insert_ne.
Qed.

Lemma merged_stored upd c key v :
  stored_field c key = Some v → is_Some (merged upd c).
Proof.
  unfold merged, stored_field, section_of.
  destruct c as [| | |[| | | | | |d]]; try done.
  destruct (d !! "cockroachdb") as [[| | | | | |fields]|]; try done.
Qed.

(** C3.  [save_config] merges the update into the [cockroachdb] section of
    the document on disk and touches nothing else: after it, every other
    section of the document is as before; every field of the stored
    section that the update does not name is stored as before and is read
    back by [load_config] with the value it had (and the save succeeds);
    and after a successful save every field of the update is read back
    with its new value. *)
Theorem save_config_merge upd s :
  ∃ r s' out,
    save_config upd s = (r, s', out) ∧
    (∀ name, name ≠ "cockroachdb" →
       section_of (config s') name = section_of (config s) name) ∧
    (∀ key, upd !! key = None →
       stored_field (config s') key = stored_field (config s) key) ∧
    (∀ key v, stored_field (config s) key = Some v → upd !! key = None →
       r = Ret true ∧
       ∃ fields, load_config s' = (Ret (JObj fields), s', []) ∧
                 fields !! key = Some v) ∧
    (r = Ret true → ∀ key v, upd !! key = Some v →
       ∃ fields, load_config s' = (Ret (JObj fields), s', []) ∧
                 fields !! key = Some v).
Proof.
  destruct (merged upd (config s)) as [doc|] eqn:Hm.
  - rewrite (save_config_ok _ _ _ Hm).
    destruct (merged_spec _ _ _ Hm) as (d' & fields & -> & Hsec & Hother & Hstored).
    eexists _, _, _. split; [done|].
    assert (load_config (set_config (Json (JObj d')) s) =
            (Ret (JObj (upd ∪ fields)), set_config (Json (JObj d')) s, [])) as Hload.
    { rewrite load_config_eq. simpl. by rewrite Hsec. }
    split_and!.
    + intros name Hne. simpl. by apply Hother.
    + intros key Hu. unfold stored_field at 1, section_of. simpl.
      by rewrite Hsec, lookup_union_r, Hstored.
    + intros key v Hv Hu. split; [done|].
      eexists. split; [exact Hload|].
      rewrite lookup_union_r by done. by rewrite <- Hstored.
    + intros _ key v Hu. eexists. split; [exact Hload|].
      by apply lookup_union_Some_l.
  - destruct (save_config_fail _ _ Hm) as [e ->].
    eexists _, _, _. split; [done|]. split_and!; try done.
    intros key v Hv _. apply (merged_stored upd) in Hv as [doc Hdoc]. congruence.
Qed.


(** C10.  [load_config] returns for every state of the configuration
    file, without raising and without touching anything; when the file
    exists but cannot be read or is not JSON, it prints one warning and
    returns the complete built-in defaults. *)
Theorem load_config_total s :
  (∃ v out, load_config s = (Ret v, s, out)) ∧
  (config s = Unreadable ∨ config s = NotJson →
   ∃ e, load_config s = (Ret (JObj default_config), s, [WarnReadConfig e]) ∧
        level (WarnReadConfig e) = Warning).
Proof.
  rewrite load_config_eq. split.
  - destruct (config s) as [| | |[]]; by eexists _, _.
  - intros [-> | ->]; by eexists.
Qed.

(** *** The CA server and the cluster *)

(** C9 (amended).  Without a PID file, [stop_ca_server] runs no command
    (so sends no signal), changes nothing, prints the warning that the CA
    server is not running, and returns [False]: the caller is told that
    nothing was stopped, not that the stop succeeded. *)
Theorem stop_ca_server_without_pid_file s :
  files s !! (astranet_dir env +:+ "/ca_server.pid") = None →
  stop_ca_server spawn env s = (Ret false, s, [WarnCaNotRunning]) ∧
  level WarnCaNotRunning = Warning.
Proof.
  intros Hpid. split; [|done].
  unfold stop_ca_server, path_exists, print, get_state, mbind, M_bind, mret, M_ret.
  cbn. rewrite Hpid. reflexivity.
Qed.


(** *** New migrations *)

Lemma file_numbers_eq (l : list string) s :
  file_numbers l s = (Ret (omap numbered l), s, []).
Proof.
  induction l as [|f l IH]; [done|]. cbn [file_numbers omap list_omap].
  unfold numbered at 1.
  destruct (PyStr.isdigit (version_prefix f)) eqn:Hd; [|exact IH].
  destruct (int_isdigit _ Hd) as (n & -> & _).
  unfold mbind, M_bind. by rewrite IH.
Qed.

Lemma foldl_max_init (l : list Z) (x : Z) : x ≤ foldl Z.max x l.
Proof.
  revert x. induction l as [|z l IH]; intros x; simpl; [lia|].
  etrans; [|apply IH]. lia.
Qed.

Lemma foldl_max_upper (l : list Z) (x y : Z) :
  y ∈ x :: l → y ≤ foldl Z.max x l.
Proof.
  revert x. induction l as [|z l IH]; intros x Hy; simpl.
  - apply list_elem_of_singleton in Hy. lia.
  - apply elem_of_cons in Hy as [-> | Hy].
    + etrans; [|apply foldl_max_init]. lia.
    + apply elem_of_cons in Hy as [-> | Hy].
      * etrans; [|apply foldl_max_init]. lia.
      * apply IH. by right.
Qed.

(** Where [create_migration] returns: the directory has no [.sql] file, or
    one of them has a prefix that is all digits.  The new version is above
    the tracked version and above the number of every such file. *)
Lemma create_migration_fresh name s cur s1 o1 entries :
  get_current_version spawn env s = (Ret cur, s1, o1) →
  migrations s = Some entries →
  glob_sql entries = [] ∨ omap numbered (glob_sql entries) ≠ [] →
  ∃ v s',
    create_migration spawn env template name s =
      (Ret (PyStr.format_03d v +:+ "_" +:+ name +:+ ".sql"), s',
       o1 ++ [MsgCreated (PyStr.format_03d v +:+ "_" +:+ name +:+ ".sql")]) ∧
    v = match omap numbered (glob_sql entries) with
        | [] => cur + 1
        | n :: ns => Z.max (cur + 1) (foldl Z.max n ns + 1)
        end ∧
    cur < v ∧
    ∀ f n, f ∈ glob_sql entries → numbered f = Some n → n < v.
Proof.
  intros Hcur Hm Hdir.
  destruct (get_current_version_frame s) as (r & s1' & Hr & _ & Hm1).
  rewrite Hcur in Hr. injection Hr as <- <- ->.
  unfold create_migration, mbind, M_bind. rewrite Hcur.
  unfold get_state, write_migration, put_state, print, mbind, M_bind, mret, M_ret.
  cbn [app]. rewrite Hm1, Hm.
  change (default [] (Some entries)) with entries.
  destruct (glob_sql entries) as [|f0 l] eqn:Hg.
  - unfold get_state. cbn. rewrite Hm1, Hm. cbn.
    eexists _, _. split; [reflexivity|]. split_and!; [done|lia|].
    intros f n Hf. by apply elem_of_nil in Hf.
  - rewrite file_numbers_eq.
    destruct (omap numbered (f0 :: l)) as [|n ns] eqn:Hn.
    { by destruct Hdir. }
    unfold get_state. cbn. rewrite Hm1, Hm. cbn.
    eexists _, _. split; [reflexivity|].
    split_and!; [done|lia|].
    intros f k Hf Hk.
    assert (k ∈ n :: ns) as Hin.
    { rewrite <- Hn. apply list_elem_of_omap. by exists f. }
    apply foldl_max_upper in Hin. lia.
Qed.

(** In those states the version that the returned file name carries is
    above the number of every file that was there: no collision. *)
Lemma create_migration_no_collision name s cur s1 o1 entries :
  get_current_version spawn env s = (Ret cur, s1, o1) →
  migrations s = Some entries →
  glob_sql entries = [] ∨ omap numbered (glob_sql entries) ≠ [] →
  ∃ filename v s' out,
    create_migration spawn env template name s = (Ret filename, s', out) ∧
    numbered filename = Some v ∧ parsed_version filename = Some v ∧
    ∀ f n, f ∈ glob_sql entries → numbered f = Some n → n < v.
Proof.
  intros Hcur Hm Hdir.
  destruct (create_migration_fresh name s cur s1 o1 entries Hcur Hm Hdir)
    as (v & s' & Heq & _ & Hlt & Hfresh).
  pose proof (get_current_version_nonneg _ _ _ _ Hcur) as Hnonneg.
  destruct (new_file_version v name) as [Hn Hp]; [lia|].
  eexists _, v, _, _. split; [exact Heq|]. by split_and!.
Qed.

(** Where it raises: the directory has [.sql] files, none with a prefix
    that is all digits; [max] is then given an empty list. *)
Lemma create_migration_raises name s cur s1 o1 entries :
  get_current_version spawn env s = (Ret cur, s1, o1) →
  migrations s = Some entries →
  glob_sql entries ≠ [] → omap numbered (glob_sql entries) = [] →
  create_migration spawn env template name s = (Raise ValueError, s1, o1).
Proof.
  intros Hcur Hm Hg Hn.
  destruct (get_current_version_frame s) as (r & s1' & Hr & _ & Hm1).
  rewrite Hcur in Hr. injection Hr as <- <- ->.
  unfold create_migration, mbind, M_bind. rewrite Hcur.
  unfold get_state, mbind, M_bind, mret, M_ret.
  cbn [app]. rewrite Hm1, Hm.
  change (default [] (Some entries)) with entries.
  destruct (glob_sql entries) as [|f0 l] eqn:Hg'; [done|].
  by rewrite file_numbers_eq, Hn.
Qed.

End Properties.

(** ** The managers on sample hosts *)





(** The scenario of the specification: of the migrations 1, 2 and 3, the
    second fails; the first is applied, the third is never started. *)
Example migrate_stops_at_2 :
  let run := migrate spawn_rejecting_2 sample_env (host three_migrations) in
  run.1.1 = Ret false ∧
  attempted run.2 = [(1, "001_init.sql"); (2, "002_users.sql")] ∧
  applied run.2 = [1] ∧ failed run.2 = [2] ∧ halted run.2 = [2] ∧
  files run.1.2 = ∅.
Proof. by vm_compute. Qed.


Example apply_migration_cleans_up :
  let s := set_files {["/root/.astranet/ca_server.pid" := "4242"]} (host three_migrations) in
  let run := apply_migration spawn_rejecting_2 sample_env 2 "002_users.sql" s in
  run.1.1 = Ret false ∧
  files run.1.2 = {["/root/.astranet/ca_server.pid" := "4242"]} ∧
  files run.1.2 !! staging_path sample_env 2 = None.
Proof. by vm_compute. Qed.

Lemma save_config_merge_witness :
  ∃ s' fields,
    (save_config new_domain (configured two_sections)).1 = (Ret true, s') ∧
    section_of (config s') "docker" = Some (JObj {["compose" := JBool true]}) ∧
    load_config s' = (Ret (JObj fields), s', []) ∧
    fields !! "sql_port" = Some (JInt 26000) ∧
    fields !! "domain" = Some (JStr "node2.local").
Proof.
  destruct (save_config_merge new_domain (configured two_sections))
    as (r & s' & out & Heq & Hother & _ & Hkeep & Hnew).
  destruct (Hkeep "sql_port" (JInt 26000)) as (-> & fields & Hload & Hport).
  - vm_compute. reflexivity.
  - vm_compute. reflexivity.
  - destruct (Hnew eq_refl "domain" (JStr "node2.local")) as (fields' & Hload' & Hdom).
    { vm_compute. reflexivity. }
    rewrite Hload in Hload'. injection Hload' as <-.
    exists s', fields. rewrite Heq. split; [reflexivity|].
    split; [|split; [exact Hload|split; [exact Hport|exact Hdom]]].
    rewrite Hother by discriminate. vm_compute. reflexivity.
Defined.



Lemma load_config_total_witness :
  ∃ e, load_config corrupted = (Ret (JObj default_config), corrupted, [WarnReadConfig e]) ∧
       level (WarnReadConfig e) = Warning.
Proof.
  apply (proj2 (load_config_total corrupted)). right. reflexivity.
Defined.

(** C9, as stated, fails: without a PID file the stop is not reported as
    done; [stop_ca_server] returns [False]. *)
Lemma stop_ca_server_reports_failure :
  files (host []) !! (astranet_dir sample_env +:+ "/ca_server.pid") = None ∧
  (stop_ca_server calm_spawn sample_env (host [])).1.1 = Ret false ∧
  (stop_ca_server calm_spawn sample_env (host [])).1.1 ≠ Ret true.
Proof. split_and!; [by vm_compute..|]. vm_compute. discriminate. Qed.

Lemma stop_ca_server_without_pid_file_witness :
  stop_ca_server calm_spawn sample_env (host [])
    = (Ret false, host [], [WarnCaNotRunning]) ∧
  issued (host []) = [].
Proof.
  split; [|reflexivity].
  apply (stop_ca_server_without_pid_file calm_spawn sample_env (host [])).
  vm_compute. reflexivity.
Defined.


Example init_cluster_other_failure :
  let refused := λ (_ : list string) (_ : string) (f : gmap string string),
                   Exited 1 "" "ERROR: connection refused" f in
  (init_cluster refused sample_env (host [])).1.1 = Ret false.
Proof. by vm_compute. Qed.

(** C4.  On a migrations directory whose only [.sql] file has no numeric
    prefix, [create_migration] does not compute a version: [max] is given
    an empty list and raises [ValueError]; no file is written. *)
Theorem create_migration_unnumbered_directory :
  glob_sql ((λ n, (n, Some "SELECT 1;")) <$> ["bad_name.sql"]) = ["bad_name.sql"] ∧
  numbered "bad_name.sql" = None ∧
  create_migration calm_spawn sample_env sample_template "add_users"
      (host ["bad_name.sql"])
    = (Raise ValueError, queried ["bad_name.sql"], []).
Proof. split_and!; by vm_compute. Qed.

Example create_migration_behind :
  (create_migration calm_spawn sample_env sample_template "add_users"
     (host ["002_users.sql"; "001_init.sql"; "bad_name.sql"])).1.1
    = Ret "003_add_users.sql".
Proof. by vm_compute. Qed.

(** The same mismatch seen from the other side: [create_migration] counts
    only prefixes that are all digits, [get_pending_migrations] applies
    [int()], which also reads a signed prefix. *)
Example create_migration_signed_prefix :
  let run := create_migration calm_spawn sample_env sample_template "add"
               (host ["+2_x.sql"; "001_a.sql"]) in
  run.1.1 = Ret "002_add.sql" ∧
  (get_pending_migrations calm_spawn sample_env run.1.2).1.1
    = Ret [(1, "001_a.sql"); (2, "+2_x.sql"); (2, "002_add.sql")].
Proof. by vm_compute. Qed.

(** * Further properties *)

(** ** The configuration store *)

(** A first save, when there is no cluster section yet. *)
Lemma save_config_no_section upd s :
  config s = NoFile ∨ (∃ doc, config s = Json (JObj doc) ∧ doc !! "cockroachdb" = None) →
  ∃ s', save_config upd s = (Ret true, s', []) ∧
        load_config s' = (Ret (JObj upd), s', []).
Proof.
  intros Hc.
  assert (∃ d, merged upd (config s)
               = Some (JObj (<["cockroachdb" := JObj (upd ∪ ∅)]> d))) as [d Hm].
  { unfold merged. destruct Hc as [-> | (doc & -> & ->)]; by eexists. }
  rewrite (save_config_ok _ _ _ Hm). eexists. split; [done|].
  rewrite load_config_eq. simpl. rewrite lookup_insert_eq. simpl.
  by rewrite (right_id_L ∅ (∪)).
Qed.


(** X2.  Two saves in a row are one save of both updates, the later one
    winning where they name the same field; so saving the same update
    twice is saving it once. *)
Theorem save_config_twice u1 u2 s s1 o1 :
  save_config u1 s = (Ret true, s1, o1) →
  save_config u2 s1 = save_config (u2 ∪ u1) s ∧
  save_config u1 s1 = (Ret true, s1, []).
Proof.
  intros H1.
  destruct (merged u1 (config s)) as [doc1|] eqn:Hm1.
  2:{ destruct (save_config_fail _ _ Hm1) as [e He]. congruence. }
  rewrite (save_config_ok _ _ _ Hm1) in H1. injection H1 as <- <-.
  assert (∀ u, ∃ d f,
            merged u1 (config s) = Some (JObj (<["cockroachdb" := JObj (u1 ∪ f)]> d)) ∧
            merged u (config s) = Some (JObj (<["cockroachdb" := JObj (u ∪ f)]> d)))
    as Hshape.
  { intros u. unfold merged in *.
    destruct (config s) as [| | |[| | | | | |d]]; try done.
    - by eexists _, ∅.
    - destruct (d !! "cockroachdb") as [[| | | | | |f]|]; try done.
      + by eexists d, f.
      + by eexists _, ∅. }
  assert (∀ u d f,
            merged u (Json (JObj (<["cockroachdb" := JObj (u1 ∪ f)]> d)))
            = Some (JObj (<["cockroachdb" := JObj ((u ∪ u1) ∪ f)]> d))) as Hnext.
  { intros u d f. unfold merged. rewrite lookup_insert_eq, insert_insert_eq.
    by rewrite (assoc_L (∪)). }
  split.
  - destruct (Hshape (u2 ∪ u1)) as (d & f & Hd1 & Hd2).
    rewrite Hm1 in Hd1. injection Hd1 as ->.
    rewrite (save_config_ok u2 (set_config _ s) _ (Hnext u2 d f)).
    by rewrite (save_config_ok (u2 ∪ u1) s _ Hd2).
  - destruct (Hshape u1) as (d & f & Hd1 & _).
    rewrite Hm1 in Hd1. injection Hd1 as ->.
    rewrite (save_config_ok u1 (set_config _ s) _ (Hnext u1 d f)).
    by rewrite (idemp (∪) u1).
Qed.

(** X3.  While the configuration has no [cockroachdb] section (no file, or
    a document without the section), [load_config] returns the built-in
    defaults; after a [save_config] it returns the saved fields and only
    those: the defaults of the fields that were not saved are gone. *)
Theorem save_config_replaces_defaults upd s :
  config s = NoFile ∨ (∃ doc, config s = Json (JObj doc) ∧ doc !! "cockroachdb" = None) →
  load_config s = (Ret (JObj default_config), s, []) ∧
  ∃ s', save_config upd s = (Ret true, s', []) ∧
        load_config s' = (Ret (JObj upd), s', []).
Proof.
  intros Hc. split; [|by apply save_config_no_section].
  rewrite load_config_eq. destruct Hc as [-> | (doc & -> & ->)]; done.
Qed.

(** [update_config] is [load_config], then [save_config] of the update
    over what was loaded. *)
Lemma update_config_eq kw s :
  update_config kw s =
    match load_config s with
    | (Ret (JObj fields), s1, o1) =>
        let '(r, s2, o2) := save_config (kw ∪ fields) s1 in (r, s2, o1 ++ o2)
    | (Ret _, s1, o1) => (Raise AttributeError, s1, o1)
    | (Raise e, s1, o1) => (Raise e, s1, o1)
    end.
Proof.
  unfold update_config, mbind, M_bind.
  destruct (load_config s) as [[[v|e] s1] o1]; [|done].
  destruct v; cbn -[save_config]; try done.
  all: rewrite ?app_nil_r; try done.
  by destruct (save_config _ s1) as [[r s2] o2].
Qed.

(** X4.  [update_config] merges like [save_config] when the document has
    its [cockroachdb] section.  When there is no section yet (no file, or
    a document without it) it also writes every built-in default that the
    update does not name: [load_config] afterwards returns the update over
    the defaults. *)
Theorem update_config_merges kw s :
  (∀ doc fields, config s = Json (JObj doc) →
     doc !! "cockroachdb" = Some (JObj fields) →
     update_config kw s = save_config kw s) ∧
  (config s = NoFile ∨ (∃ doc, config s = Json (JObj doc) ∧ doc !! "cockroachdb" = None) →
   update_config kw s = save_config (kw ∪ default_config) s ∧
   ∃ s', update_config kw s = (Ret true, s', []) ∧
         load_config s' = (Ret (JObj (kw ∪ default_config)), s', [])).
Proof.
  split.
  - intros doc fields Hc Hd. rewrite update_config_eq, load_config_eq, Hc, Hd. simpl.
    assert (merged (kw ∪ fields) (config s)
            = Some (JObj (<["cockroachdb" := JObj (kw ∪ fields)]> doc))) as H1.
    { unfold merged. rewrite Hc, Hd.
      by rewrite <- (assoc_L (∪)), (idemp (∪) fields). }
    assert (merged kw (config s)
            = Some (JObj (<["cockroachdb" := JObj (kw ∪ fields)]> doc))) as H2.
    { unfold merged. by rewrite Hc, Hd. }
    by rewrite (save_config_ok _ _ _ H1), (save_config_ok _ _ _ H2).
  - intros Hc.
    destruct (save_config_no_section (kw ∪ default_config) s Hc)
      as (s' & Hsave & Hload').
    assert (update_config kw s = save_config (kw ∪ default_config) s) as Heq.
    { rewrite update_config_eq, load_config_eq.
      destruct Hc as [-> | (doc & -> & ->)]; simpl;
      destruct (save_config _ s) as [[r s2] o2]; done. }
    split; [done|]. exists s'. by rewrite Heq.
Qed.

(** X5.  When the [cockroachdb] entry of the document is not an object,
    [update_config] raises [AttributeError] and has changed and printed
    nothing, where [save_config] alone catches the same condition and
    returns [False]. *)
Theorem update_config_raises kw s doc stored :
  config s = Json (JObj doc) →
  doc !! "cockroachdb" = Some stored →
  (∀ fields, stored ≠ JObj fields) →
  update_config kw s = (Raise AttributeError, s, []) ∧
  ∃ e, save_config kw s = (Ret false, s, [ErrSaveConfig e]).
Proof.
  intros Hc Hd Hstored. split.
  - rewrite update_config_eq, load_config_eq, Hc, Hd. simpl.
    destruct stored; try done. by destruct (Hstored fields).
  - apply save_config_fail. unfold merged. rewrite Hc, Hd.
    destruct stored; try done. by destruct (Hstored fields).
Qed.

(** ** Stripped text and digits *)

Lemma lstrip_head s :
  match PyStr.lstrip s with
  | EmptyString => True
  | String c _ => PyStr.is_space c = false
  end.
Proof.
  induction s as [|c s IH]; simpl; [done|].
  by destruct (PyStr.is_space c) eqn:Hc; simpl.
Qed.

Lemma rstrip_idem s : PyStr.rstrip (PyStr.rstrip s) = PyStr.rstrip s.
Proof.
  induction s as [|c s IH]; simpl; [done|].
  destruct (PyStr.rstrip s) as [|d r] eqn:Hr.
  - destruct (PyStr.is_space c) eqn:Hc; simpl; [done|]. by rewrite Hc.
  - change (PyStr.rstrip (String c (String d r)))
      with (match PyStr.rstrip (String d r) with
            | EmptyString =>
                if PyStr.is_space c then EmptyString else String c EmptyString
            | x => String c x
            end).
    by rewrite IH.
Qed.

Lemma rstrip_head c s :
  PyStr.is_space c = false → ∃ r, PyStr.rstrip (String c s) = String c r.
Proof.
  intros Hc. simpl. destruct (PyStr.rstrip s); rewrite ?Hc; by eexists.
Qed.

(** What [strip] returns is empty or starts with a character that is not
    white space. *)
Lemma strip_head s :
  match PyStr.strip s with
  | EmptyString => True
  | String c _ => PyStr.is_space c = false
  end.
Proof.
  unfold PyStr.strip. pose proof (lstrip_head s) as H.
  destruct (PyStr.lstrip s) as [|c t]; [done|].
  by destruct (rstrip_head c t H) as [r ->].
Qed.

Lemma strip_idem s : PyStr.strip (PyStr.strip s) = PyStr.strip s.
Proof.
  pose proof (strip_head s) as H.
  unfold PyStr.strip in *.
  destruct (PyStr.rstrip (PyStr.lstrip s)) as [|c t] eqn:Hs; [done|].
  cbn [PyStr.lstrip]. rewrite H, <- Hs. apply rstrip_idem.
Qed.

Lemma split_head_line sep s :
  PyStr.split sep (PyStr.split_head sep s) = [PyStr.split_head sep s].
Proof.
  induction s as [|c s IH]; simpl; [done|].
  destruct (Ascii.eqb c sep) eqn:Hc; simpl; [done|].
  by rewrite Hc, IH.
Qed.

Lemma eqb_empty_false s : String.eqb s "" = false → s ≠ "".
Proof. by intros H ->. Qed.









Lemma signals_app l1 l2 : signals (l1 ++ l2) = signals l1 ++ signals l2.
Proof. apply filter_app. Qed.

(** ** The managers, further *)

Section FurtherProperties.

Variable spawn : list string → string → gmap string string → spawned.
Variable env : settings.
Variable template : Z → string → string.
Variable node : node_settings.

(** *** Running a command *)

Lemma state_after_after s f1 c1 f2 c2 :
  state_after (state_after s f1 c1) f2 c2 = state_after s f2 (c1 ++ c2).
Proof. unfold state_after. simpl. by rewrite app_assoc. Qed.

Lemma state_after_nil s : state_after s (files s) [] = s.
Proof. unfold state_after. rewrite app_nil_r. by destruct s. Qed.

(** A command without [sudo]: it prints nothing, is recorded, and raises
    only when it is interrupted.  Without capture its output is lost. *)
Lemma run_command_cases cmd capture s :
  ∃ f' r, run_command spawn env cmd false capture s = (r, state_after s f' [cmd], []) ∧
    match r with
    | Ret (rc, out, err) =>
        (capture = false → out = "" ∧
           (err = "" ∨ ∃ f1, spawn (issued s) cmd (files s) = SpawnFailed err f1)) ∧
        (rc = 0 → ∃ o e f1, spawn (issued s) cmd (files s) = Exited 0 o e f1)
    | Raise e => e = KeyboardInterrupt
    end.
Proof.
  unfold run_command. cbv zeta. cbn [andb].
  destruct (spawn _ _ _) as [rc o e f|text f|f] eqn:Hs; simpl.
  - destruct capture; eexists _, _; (split; [reflexivity|]); simpl; split; eauto;
      try done; intros ->; eauto.
  - eexists _, _; (split; [reflexivity|]); simpl. split; [eauto|done].
  - eexists _, _; (split; [reflexivity|]); done.
Qed.

Lemma kill_process_cases (pid : string) (force : bool) s :
  let cmd := "kill " +:+ (if force then "-9" else "-15") +:+ " " +:+ pid in
  let line := if is_root env then cmd else "sudo " +:+ cmd in
  ∃ f' r, kill_process spawn env pid force s =
    (r, {| files := f'; config := config s; migrations := migrations s;
           issued := issued s ++ [line] |}, []) ∧
    (r = Raise KeyboardInterrupt ∨ r = Ret true ∨ r = Ret false).
Proof.
  unfold kill_process, run_command, mbind, M_bind, mret, M_ret. simpl.
  destruct (is_root env); simpl;
    destruct (spawn _ _ _) as [rc o e f|text f|f]; simpl; eexists _, _;
    (split; [reflexivity|]); try destruct (rc =? 0); eauto.
Qed.

(** *** SystemUtils *)

(** X6.  [is_port_in_use] runs one [lsof] command, without [sudo], and
    touches nothing else.  It reports a PID exactly when it reports the
    port as in use, and the PID is then not empty and carries no white
    space around it. *)
Theorem is_port_in_use_pid port s running pid s' out :
  is_port_in_use spawn env port s = (Ret (running, pid), s', out) →
  out = [] ∧
  issued s' = issued s ++
    ["lsof -i :" +:+ PyStr.str port +:+ " -t 2>/dev/null | head -1"] ∧
  config s' = config s ∧ migrations s' = migrations s ∧
  match pid with
  | Some p => running = true ∧ p ≠ "" ∧ PyStr.strip p = p
  | None => running = false
  end.
Proof.
  unfold is_port_in_use, run_command, mbind, M_bind, mret, M_ret. simpl.
  destruct (spawn _ _ _) as [rc o e f|text f|f]; simpl; [| |done].
  - destruct (rc =? 0); simpl.
    + destruct (String.eqb (PyStr.strip o) "") eqn:He; simpl;
        intros [= <- <- <- <-]; split_and!; try done.
      * by apply eqb_empty_false.
      * apply strip_idem.
    + by intros [= <- <- <- <-].
  - by intros [= <- <- <- <-].
Qed.

(** X7.  The PID that [get_service_pid] returns is one line of the
    [pgrep] output: it is not empty, does not start with white space and
    holds no line break, however many processes matched. *)
Theorem get_service_pid_line pattern s pid s' out :
  get_service_pid spawn env pattern s = (Ret (Some pid), s', out) →
  pid ≠ "" ∧ PyStr.lstrip pid = pid ∧
  PyStr.split (ascii_of_nat 10) pid = [pid] ∧
  issued s' = issued s ++ ["pgrep -f '" +:+ pattern +:+ "'"].
Proof.
  unfold get_service_pid, run_command, mbind, M_bind, mret, M_ret. simpl.
  destruct (spawn _ _ _) as [rc o e f|text f|f]; simpl; [| |done].
  - destruct (rc =? 0); simpl; [|done].
    pose proof (strip_head o) as Hhead.
    destruct (PyStr.strip o) as [|c t] eqn:Hs; simpl; [done|].
    intros [= <- <- <-].
    assert (Ascii.eqb c (ascii_of_nat 10) = false) as Hc.
    { destruct (Ascii.eqb_spec c (ascii_of_nat 10)) as [->|]; done. }
    split_and!; try done.
    + cbn [PyStr.split_head]. by rewrite Hc.
    + cbn [PyStr.split_head]. rewrite Hc. cbn [PyStr.lstrip]. by rewrite Hhead.
    + apply (split_head_line _ (String c t)).
  - done.
Qed.

Lemma is_port_in_use_cases port s :
  let probe := "lsof -i :" +:+ PyStr.str port +:+ " -t 2>/dev/null | head -1" in
  ∃ f', let s' := {| files := f'; config := config s; migrations := migrations s;
                     issued := issued s ++ [probe] |} in
    is_port_in_use spawn env port s = (Raise KeyboardInterrupt, s', []) ∨
    is_port_in_use spawn env port s = (Ret (false, None), s', []) ∨
    ∃ pid, pid ≠ "" ∧ is_port_in_use spawn env port s = (Ret (true, Some pid), s', []).
Proof.
  unfold is_port_in_use, run_command, mbind, M_bind, mret, M_ret. simpl.
  destruct (spawn _ _ _) as [rc o e f|text f|f]; simpl; exists f; eauto.
  destruct (rc =? 0); simpl; eauto.
  destruct (String.eqb (PyStr.strip o) "") eqn:He; simpl; eauto.
  right. right. exists (PyStr.strip o). split; [|done]. by apply eqb_empty_false.
Qed.

(** *** AstranetManager *)

(** X8.  In the status that [get_services_status] returns, a service is
    running exactly when its PID is not the empty string; the backend is
    probed on port 3000 first, then the dashboard on port 5173, and
    nothing else is run. *)
Theorem get_services_status_pids s backend_running backend_pid
    dashboard_running dashboard_pid s' out :
  get_services_status spawn env s =
    (Ret ((backend_running, backend_pid), (dashboard_running, dashboard_pid)), s', out) →
  (backend_running = true ↔ backend_pid ≠ "") ∧
  (dashboard_running = true ↔ dashboard_pid ≠ "") ∧
  issued s' = issued s ++ ["lsof -i :3000 -t 2>/dev/null | head -1";
                           "lsof -i :5173 -t 2>/dev/null | head -1"].
Proof.
  unfold get_services_status, mbind, M_bind, mret, M_ret.
  destruct (is_port_in_use_cases 3000 s) as (f1 & [H1|[H1|(p1 & Hp1 & H1)]]);
    rewrite H1; [done| |].
  - match goal with |- context [is_port_in_use _ _ _ ?s1] =>
      destruct (is_port_in_use_cases 5173 s1) as (f2 & [H2|[H2|(p2 & Hp2 & H2)]])
    end; rewrite H2; [done| |]; simpl; intros [= <- <- <- <- <- <-]; simpl.
    + rewrite <- app_assoc. split_and!; done.
    + rewrite <- app_assoc. split_and!; try done. by destruct p2.
  - match goal with |- context [is_port_in_use _ _ _ ?s1] =>
      destruct (is_port_in_use_cases 5173 s1) as (f2 & [H2|[H2|(p2 & Hp2 & H2)]])
    end; rewrite H2; [done| |]; simpl; intros [= <- <- <- <- <- <-]; simpl.
    + rewrite <- app_assoc. split_and!; try done. by destruct p1.
    + rewrite <- app_assoc. split_and!; try done; [by destruct p1|by destruct p2].
Qed.

(** X9.  [stop_backend] probes port 3000 and then sends at most one
    signal: [kill -15] to the PID found, under [sudo] unless the tool runs
    as root, never [kill -9].  When the port is free it sends nothing and
    does not report a failure. *)
Theorem stop_backend_signal s r s' out :
  stop_backend spawn env s = (r, s', out) →
  ∃ signals,
    issued s' = issued s ++ "lsof -i :3000 -t 2>/dev/null | head -1" :: signals ∧
    (signals = [] ∨
     ∃ pid, pid ≠ "" ∧
       signals = [if is_root env then "kill -15 " +:+ pid
                  else "sudo kill -15 " +:+ pid]) ∧
    (signals = [] → r ≠ Ret false) ∧
    (r = Ret true →
       last out = Some (Note BackendStopped) ∨
       last out = Some (Note BackendAlreadyStopped) ∧ signals = []).
Proof.
  unfold stop_backend, mbind, Op_bind, lift, say, mret, Op_ret.
  destruct (is_port_in_use_cases 3000 s) as (f1 & [H1|[H1|(p1 & Hp1 & H1)]]);
    rewrite H1; simpl.
  - intros [= <- <- <-]. exists []. split_and!; eauto; done.
  - intros [= <- <- <-]. exists []. split_and!; eauto; done.
  - match goal with |- context [kill_process _ _ _ _ ?s1] =>
      destruct (kill_process_cases p1 false s1) as (f2 & r2 & H2 & Hr2)
    end.
    rewrite H2. simpl.
    destruct Hr2 as [->|[->| ->]]; simpl; intros [= <- <- <-]; simpl;
      rewrite <- app_assoc;
      (eexists; split; [reflexivity|]); split_and!; eauto; try done.
    all: right; exists p1; split; [done|]; by destruct (is_root env).
Qed.

(** X10.  [stop_dashboard] does the same on port 5173: at most one
    [kill -15], under [sudo] unless the tool runs as root, and no signal
    and no failure when the port is free. *)
Theorem stop_dashboard_signal s r s' out :
  stop_dashboard spawn env s = (r, s', out) →
  ∃ signals,
    issued s' = issued s ++ "lsof -i :5173 -t 2>/dev/null | head -1" :: signals ∧
    (signals = [] ∨
     ∃ pid, pid ≠ "" ∧
       signals = [if is_root env then "kill -15 " +:+ pid
                  else "sudo kill -15 " +:+ pid]) ∧
    (signals = [] → r ≠ Ret false) ∧
    (r = Ret true →
       last out = Some (Note DashboardStopped) ∨
       last out = Some (Note DashboardAlreadyStopped) ∧ signals = []).
Proof.
  unfold stop_dashboard, mbind, Op_bind, lift, say, mret, Op_ret.
  destruct (is_port_in_use_cases 5173 s) as (f1 & [H1|[H1|(p1 & Hp1 & H1)]]);
    rewrite H1; simpl.
  - intros [= <- <- <-]. exists []. split_and!; eauto; done.
  - intros [= <- <- <-]. exists []. split_and!; eauto; done.
  - match goal with |- context [kill_process _ _ _ _ ?s1] =>
      destruct (kill_process_cases p1 false s1) as (f2 & r2 & H2 & Hr2)
    end.
    rewrite H2. simpl.
    destruct Hr2 as [->|[->| ->]]; simpl; intros [= <- <- <-]; simpl;
      rewrite <- app_assoc;
      (eexists; split; [reflexivity|]); split_and!; eauto; try done.
    all: right; exists p1; split; [done|]; by destruct (is_root env).
Qed.

(** X28.  [compile_backend] installs the dependencies only when the
    [pkg-config] check fails, and does not look at how the installation
    went: the dependencies are reported as fine and [cargo build] runs in
    every case.  The result is that of [cargo build] alone. *)
Theorem compile_backend_result s b s' out :
  compile_backend spawn env s = (Ret b, s', out) →
  ∃ install,
    issued s' = issued s ++ "pkg-config --exists tss2-sys" :: install ++
      ["cd /home/corrancho/Astranet && cargo build --release --features tpm"] ∧
    (install = [] ∧ Note InstallingDeps ∉ out ∨
     install = ["sudo apt-get update && sudo apt-get install -y libtss2-dev"] ∧
     Note InstallingDeps ∈ out) ∧
    Note DepsOk ∈ out ∧
    (b = true ↔ last out = Some (Note CompileOk)) ∧
    (b = false ↔ last out = Some (Note CompileError)).
Proof.
  unfold compile_backend, mbind, Op_bind, lift, say, mret, Op_ret.
  destruct (run_command_cases "pkg-config --exists tss2-sys" true s)
    as (f1 & r1 & H1 & Hr1).
  rewrite H1. simpl.
  destruct r1 as [[[rc1 o1] e1]|e1]; simpl; [|done].
  destruct (rc1 =? 0); simpl.
  - match goal with |- context [run_command _ _ ?c _ _ ?st] =>
      destruct (run_command_cases c false st) as (f3 & r3 & H3 & Hr3)
    end.
    rewrite H3. simpl. rewrite state_after_after.
    destruct r3 as [[[rc3 o3] e3]|e3]; simpl; [|done].
    destruct (rc3 =? 0); simpl; intros [= <- <- <-]; exists []; simpl;
      split_and!; try done;
      try (repeat (apply elem_of_cons; first [by left|right])).
    all: left; split; [done|]; intros Hin;
      repeat (apply elem_of_cons in Hin as [Hin|Hin]; [discriminate Hin|]);
      by apply elem_of_nil in Hin.
  - match goal with |- context [run_command _ _ ?c _ _ ?st] =>
      destruct (run_command_cases c true st) as (f2 & r2 & H2 & Hr2)
    end.
    rewrite H2. simpl. rewrite state_after_after.
    destruct r2 as [[[rc2 o2] e2]|e2]; simpl; [|done].
    match goal with |- context [run_command _ _ ?c _ _ ?st] =>
      destruct (run_command_cases c false st) as (f3 & r3 & H3 & Hr3)
    end.
    rewrite H3. simpl. rewrite state_after_after.
    destruct r3 as [[[rc3 o3] e3]|e3]; simpl; [|done].
    destruct (rc3 =? 0); simpl; intros [= <- <- <-]; eexists [_]; simpl;
      split_and!; try done;
      try (repeat (apply elem_of_cons; first [by left|right])).
    all: right; split; [done|];
      repeat (apply elem_of_cons; first [by left|right]).
Qed.

(** *** The binary and the process *)

Lemma first_file_eq (paths : list string) s :
  first_file paths s =
    (Ret (head (filter (λ p, is_Some (files s !! p)) paths)), s, []).
Proof.
  induction paths as [|p paths IH]; [done|].
  cbn [first_file]. unfold is_file, path_exists, get_state, mbind, M_bind, mret, M_ret.
  cbn [fst snd]. rewrite filter_cons.
  destruct (decide (is_Some (files s !! p))) as [Hp|Hp].
  - by rewrite bool_decide_eq_true_2.
  - rewrite bool_decide_eq_false_2 by done. by rewrite IH.
Qed.

(** [get_cockroach_binary] runs at most [which cockroach], and prints
    nothing. *)
Lemma get_cockroach_binary_cases s :
  ∃ f' pre r,
    get_cockroach_binary spawn env node s = (r, state_after s f' pre, []) ∧
    (pre = [] ∧ f' = files s ∨ pre = ["which cockroach"]) ∧
    (r = Raise KeyboardInterrupt ∨ ∃ path, r = Ret path).
Proof.
  unfold get_cockroach_binary, mbind, M_bind. rewrite first_file_eq.
  destruct (head _) as [path|].
  - exists (files s), [], (Ret path). rewrite state_after_nil. split_and!; eauto.
  - destruct (run_command_cases "which cockroach" true s)
      as (f2 & r2 & H2 & Hr2).
    rewrite H2. exists f2, ["which cockroach"].
    destruct r2 as [[[rc o] e]|e]; simpl.
    + destruct (rc =? 0); simpl; eexists; split_and!; eauto.
    + subst e. eexists; split_and!; eauto.
Qed.

(** X11.  [is_cockroach_installed] and [get_cockroach_binary] agree on
    every host: when the former says no, the latter falls back to the
    bare name [cockroach]; when it says yes, the latter returns a standard
    path that holds a file, having run nothing, or else what
    [which cockroach] printed.  [/usr/local/bin/cockroach] wins whenever
    it exists. *)
Theorem cockroach_binary_agrees s installed s1 o1 :
  is_cockroach_installed spawn env node s = (Ret installed, s1, o1) →
  ∃ path,
    get_cockroach_binary spawn env node s = (Ret path, s1, o1) ∧
    (installed = false → path = "cockroach") ∧
    (installed = true →
       (path ∈ cockroach_paths node ∧ is_Some (files s !! path) ∧ s1 = s) ∨
       (issued s1 = issued s ++ ["which cockroach"] ∧
        ∃ stdout stderr f',
          spawn (issued s) "which cockroach" (files s) = Exited 0 stdout stderr f' ∧
          path = PyStr.strip stdout)) ∧
    (is_Some (files s !! "/usr/local/bin/cockroach") →
       path = "/usr/local/bin/cockroach").
Proof.
  unfold is_cockroach_installed, get_cockroach_binary, mbind, M_bind.
  rewrite first_file_eq.
  destruct (head _) as [path|] eqn:Hhead.
  - simpl. intros [= <- <- <-]. exists path. split_and!; try done.
    + intros _. left. apply head_Some_elem_of in Hhead.
      apply list_elem_of_filter in Hhead as [? ?]. done.
    + intros Hfirst. unfold cockroach_paths in Hhead.
      rewrite filter_cons_True in Hhead by done. by injection Hhead.
  - unfold run_command. simpl.
    destruct (spawn _ _ _) as [rc o e f|text f|f] eqn:Hs; simpl; [| |done].
    + intros [= <- <- <-]. destruct (rc =? 0) eqn:Hrc; simpl.
      * eexists. split_and!; try done.
        -- intros _. right. split; [done|]. apply Z.eqb_eq in Hrc as ->. eauto.
        -- intros Hfirst. unfold cockroach_paths in Hhead.
           by rewrite filter_cons_True in Hhead.
      * eexists. split_and!; try done.
        intros Hfirst. unfold cockroach_paths in Hhead.
        by rewrite filter_cons_True in Hhead.
    + intros [= <- <- <-]. simpl. eexists. split_and!; try done.
      intros Hfirst. unfold cockroach_paths in Hhead.
      by rewrite filter_cons_True in Hhead.
Qed.

(** X12.  [is_cockroach_running] reports a PID exactly when it reports
    the server as running; the PID is then not empty, stripped, and was
    confirmed by a second probe [ps -p <pid>].  It runs probes only. *)
Theorem is_cockroach_running_pid s running pid s' out :
  is_cockroach_running spawn env s = (Ret (running, pid), s', out) →
  (running = true ↔ pid ≠ "") ∧ PyStr.strip pid = pid ∧
  ∃ checks,
    issued s' = issued s ++
      "ps aux | grep 'cockroach start' | grep -v grep | awk '{print $2}' | head -1"
      :: checks ∧
    (running = true → checks = ["ps -p " +:+ pid +:+ " > /dev/null 2>&1"]) ∧
    signals checks = [].
Proof.
  unfold is_cockroach_running, run_command, mbind, M_bind, mret, M_ret. simpl.
  destruct (spawn _ _ _) as [rc o e f|text f|f]; simpl; [| |done].
  - destruct (rc =? 0); simpl.
    + destruct (String.eqb (PyStr.strip o) "") eqn:He; simpl.
      * intros [= <- <- <- <-]. split_and!; try done. by exists [].
      * destruct (spawn _ _ _) as [rc2 o2 e2 f2|text2 f2|f2]; simpl; [| |done].
        -- destruct (rc2 =? 0); simpl; intros [= <- <- <- <-]; simpl;
             rewrite <- app_assoc; split_and!; try done.
           ++ split; [|done]. intros _. by apply eqb_empty_false.
           ++ apply strip_idem.
           ++ by eexists.
           ++ by eexists.
        -- intros [= <- <- <- <-]; simpl; rewrite <- app_assoc.
           split_and!; try done. by eexists.
    + intros [= <- <- <- <-]. split_and!; try done. by exists [].
  - intros [= <- <- <- <-]. split_and!; try done. by exists [].
Qed.

Lemma is_cockroach_running_cases s :
  ∃ f' checks r,
    is_cockroach_running spawn env s = (r, state_after s f' checks, []) ∧
    signals checks = [] ∧
    (r = Raise KeyboardInterrupt ∨ r = Ret (false, "") ∨
     ∃ pid, pid ≠ "" ∧ r = Ret (true, pid)).
Proof.
  unfold is_cockroach_running, run_command, mbind, M_bind, mret, M_ret, state_after. simpl.
  destruct (spawn _ _ _) as [rc o e f|text f|f]; simpl;
    [|eexists _, [_], _; split; [reflexivity|]; eauto..].
  destruct (rc =? 0); simpl;
    [|eexists _, [_], _; split; [reflexivity|]; eauto].
  destruct (String.eqb (PyStr.strip o) "") eqn:He; simpl;
    [eexists _, [_], _; split; [reflexivity|]; eauto|].
  destruct (spawn _ _ _) as [rc2 o2 e2 f2|text2 f2|f2]; simpl;
    rewrite <- ?app_assoc.
  - destruct (rc2 =? 0); simpl; rewrite <- ?app_assoc;
      eexists _, [_; _], _; (split; [reflexivity|]); split; try done; eauto.
    right. right. eexists. split; [|done]. by apply eqb_empty_false.
  - eexists _, [_; _], _; (split; [reflexivity|]); split; try done; eauto.
  - eexists _, [_; _], _; (split; [reflexivity|]); split; try done; eauto.
Qed.

(** X13.  Besides probes, [stop_cockroach] sends nothing when the server
    is not running, and otherwise [kill -TERM <pid>] first and
    [pkill -9] only after it.  It returns [False] only after both were
    sent, and never when it sent nothing. *)
Theorem stop_cockroach_escalation s r s' out :
  stop_cockroach spawn env s = (r, s', out) →
  ∃ cmds,
    issued s' = issued s ++ cmds ∧
    (signals cmds = [] ∨
     ∃ pid, pid ≠ "" ∧
       (signals cmds = ["kill -TERM " +:+ pid] ∨
        signals cmds = ["kill -TERM " +:+ pid; "pkill -9 -f 'cockroach start'"])) ∧
    (signals cmds = [] → r ≠ Ret false) ∧
    (r = Ret false →
       ∃ pid, signals cmds = ["kill -TERM " +:+ pid; "pkill -9 -f 'cockroach start'"]).
Proof.
  unfold stop_cockroach, try_except_op, mbind, Op_bind, lift, say, mret, Op_ret.
  destruct (is_cockroach_running_cases s)
    as (f1 & c1 & r1 & H1 & Hc1 & [->|[->|(pid & Hpid & ->)]]);
    rewrite H1; simpl.
  - intros [= <- <- <-]. exists c1. split_and!; eauto; try done.
  - intros [= <- <- <-]. exists c1. split_and!; eauto; try done.
  - destruct (run_command_cases ("kill -TERM " +:+ pid) true (state_after s f1 c1))
      as (f2 & r2 & H2 & Hr2).
    rewrite H2. simpl. rewrite state_after_after.
    destruct r2 as [[[rc2 o2] e2]|e2]; simpl.
    2:{ subst e2. simpl. intros [= <- <- <-]. eexists. split; [reflexivity|].
        rewrite signals_app, Hc1. simpl.
        split_and!; eauto; try done. }
    destruct (is_cockroach_running_cases
                (state_after s f2 (c1 ++ ["kill -TERM " +:+ pid])))
      as (f3 & c3 & r3 & H3 & Hc3 & Hr3).
    destruct (negb (rc2 =? 0)); simpl; rewrite H3; simpl; rewrite state_after_after;
      destruct Hr3 as [->|[->|(pid3 & Hpid3 & ->)]]; simpl.
    all: try (intros [= <- <- <-]; eexists; split; [reflexivity|];
              rewrite !signals_app, Hc1, Hc3; simpl;
              split_and!; eauto; done).
    all: match goal with |- context [run_command _ _ ?c _ _ ?st] =>
           destruct (run_command_cases c true st)
             as (f4 & r4 & H4 & Hr4)
         end; rewrite H4; simpl; rewrite state_after_after;
         destruct r4 as [[[rc4 o4] e4]|e4]; simpl.
    all: try (subst e4; simpl; intros [= <- <- <-]; eexists; split; [reflexivity|];
              rewrite !signals_app, Hc1, Hc3; simpl;
              split_and!; eauto 10; done).
    all: match goal with |- context [is_cockroach_running _ _ ?st] =>
           destruct (is_cockroach_running_cases st)
             as (f5 & c5 & r5 & H5 & Hc5 & Hr5)
         end; rewrite H5; simpl; rewrite state_after_after;
         destruct Hr5 as [->|[->|(pid5 & Hpid5 & ->)]]; simpl.
    all: intros [= <- <- <-]; eexists; (split; [reflexivity|]);
         rewrite !signals_app, Hc1, Hc3, Hc5; simpl;
         split_and!; eauto 10; done.
Qed.

(** *** Certificates *)

(** X14.  [create_client_cert] converts the key only after the
    certificate was created, and returns [True] only when both steps
    succeeded: a certificate whose key could not be converted is reported
    as [False], with a warning instead of an error. *)
Theorem create_client_cert_steps s b s' out :
  create_client_cert spawn env node s = (Ret b, s', out) →
  ∃ pre binary conversion,
    issued s' = issued s ++ pre ++
      (binary +:+ " cert create-client root --certs-dir=" +:+ certs_dir env +:+
       " --ca-key=" +:+ certs_dir env +:+ "/ca.key") :: conversion ∧
    (pre = [] ∨ pre = ["which cockroach"]) ∧
    (conversion = [] ∨
     conversion =
       ["openssl pkcs8 -topk8 -inform PEM -outform PEM -nocrypt -in " +:+
        (certs_dir env +:+ "/client.root.key") +:+ " -out " +:+
        (certs_dir env +:+ "/client.root.pk8.key")]) ∧
    (b = true →
       conversion ≠ [] ∧
       out = [Note GeneratingClientCert; Note ClientCertGenerated;
              Note ConvertingKey; Note KeyConverted]) ∧
    (b = false →
       (conversion = [] ∧ ∃ text, out = [Note GeneratingClientCert; Note (CertError text)]) ∨
       (conversion ≠ [] ∧
        ∃ text, out = [Note GeneratingClientCert; Note ClientCertGenerated;
                       Note ConvertingKey; Note (KeyConversionError text);
                       Note KeyFormatMissing])).
Proof.
  unfold create_client_cert, mbind, Op_bind, lift, say, mret, Op_ret.
  destruct (get_cockroach_binary_cases s)
    as (f1 & pre & r1 & H1 & Hpre & [->|[binary ->]]);
    rewrite H1; simpl; [done|].
  match goal with |- context [run_command _ _ ?c _ _ _] =>
    destruct (run_command_cases c false (state_after s f1 pre))
      as (f2 & r2 & H2 & Hr2)
  end.
  rewrite H2. simpl. rewrite state_after_after.
  destruct r2 as [[[rc2 o2] e2]|e2]; simpl; [|done].
  destruct (rc2 =? 0); simpl.
  - match goal with |- context [run_command _ _ ?c _ _ ?st] =>
      destruct (run_command_cases c true st)
        as (f3 & r3 & H3 & Hr3)
    end.
    rewrite H3. simpl. rewrite state_after_after.
    destruct r3 as [[[rc3 o3] e3]|e3]; simpl; [|done].
    destruct (rc3 =? 0); simpl; intros [= <- <- <-]; simpl;
      exists pre, binary; eexists; rewrite <- app_assoc;
      (split; [reflexivity|]); split_and!; try done; eauto;
      try (by destruct Hpre as [[-> _]| ->]; eauto).
  - intros [= <- <- <-]. simpl. exists pre, binary, [].
    split_and!; try done; eauto.
    by destruct Hpre as [[-> _]| ->]; eauto.
Qed.

(** X15.  [create_ca_cert] runs the command with
    [capture_output=False]: when the command fails, the error line it
    prints carries no text of the command, unless the command could not
    be started at all. *)
Theorem create_ca_cert_error_text s s' out :
  create_ca_cert spawn env node s = (Ret false, s', out) →
  ∃ text, out = [Note GeneratingCa; Note (CertError text)] ∧
    (text = "" ∨ ∃ history cmd f f', spawn history cmd f = SpawnFailed text f').
Proof.
  unfold create_ca_cert, mbind, Op_bind, lift, say, mret, Op_ret.
  destruct (get_cockroach_binary_cases s)
    as (f1 & pre & r1 & H1 & Hpre & [->|[binary ->]]);
    rewrite H1; simpl; [done|].
  match goal with |- context [run_command _ _ ?c _ _ _] =>
    destruct (run_command_cases c false (state_after s f1 pre))
      as (f2 & r2 & H2 & Hr2)
  end.
  rewrite H2. simpl.
  destruct r2 as [[[rc2 o2] e2]|e2]; simpl; [|done].
  destruct (rc2 =? 0); simpl; [done|].
  intros [= <- <-]. exists e2. split; [done|].
  destruct Hr2 as [Hr2 _]. destruct (Hr2 eq_refl) as [_ [->|[f3 Hf3]]]; eauto 10.
Qed.

(** X16.  [create_node_cert] gives up, before it looks for the binary,
    when the address of the host cannot be read.  Otherwise the
    certificate names exactly [localhost], [127.0.0.1], the stripped
    address and the domain of this node, in that order, and the command
    is the last one run. *)
Theorem create_node_cert_names s b s' out :
  create_node_cert spawn env node s = (Ret b, s', out) →
  (b = false ∧ last out = Some (Note NoNodeIp) ∧
   issued s' = issued s ++ [host_ip_command]) ∨
  ∃ ip pre binary,
    PyStr.strip ip = ip ∧
    (pre = [] ∨ pre = ["which cockroach"]) ∧
    issued s' = issued s ++ host_ip_command :: pre ++
      [binary +:+ " cert create-node " +:+
       py_join " " ["localhost"; "127.0.0.1"; ip; domain node] +:+
       " --certs-dir=" +:+ certs_dir env +:+
       " --ca-key=" +:+ certs_dir env +:+ "/ca.key"] ∧
    (∃ stdout stderr f',
       spawn (issued s) host_ip_command (files s) = Exited 0 stdout stderr f' ∧
       ip = PyStr.strip stdout) ∧
    (b = true → last out = Some (Note NodeCertGenerated)) ∧
    (b = false → ∃ text, last out = Some (Note (CertError text))).
Proof.
  unfold create_node_cert, mbind, Op_bind, lift, say, mret, Op_ret.
  assert (∃ f1 r1, run_command spawn env host_ip_command false true s
                   = (r1, state_after s f1 [host_ip_command], []) ∧
            match r1 with
            | Ret (rc, o, _) =>
                rc = 0 → ∃ e, spawn (issued s) host_ip_command (files s) = Exited 0 o e f1
            | Raise _ => True
            end) as (f1 & r1 & H1 & Hr1).
  { unfold run_command. cbn [andb].
    destruct (spawn _ _ _) as [rc o e f|text f|f]; eexists _, _;
      (split; [reflexivity|]); try done. intros ->. by eexists. }
  rewrite H1. simpl.
  destruct r1 as [[[rc1 o1] e1]|e1]; simpl; [|done].
  destruct (rc1 =? 0) eqn:Hrc; simpl.
  2:{ intros [= <- <- <-]. left. done. }
  apply Z.eqb_eq in Hrc. destruct (Hr1 Hrc) as (e & Hspawn).
  set (o := o1) in *.
  destruct (get_cockroach_binary_cases (state_after s f1 [host_ip_command]))
    as (f2 & pre & r2 & H2 & Hpre & [->|[binary ->]]);
    rewrite H2; simpl; [done|].
  rewrite state_after_after.
  match goal with |- context [run_command _ _ ?c _ _ ?st] =>
    destruct (run_command_cases c false st) as (f3 & r3 & H3 & Hr3)
  end.
  rewrite H3. simpl. rewrite state_after_after.
  destruct r3 as [[[rc3 o3] e3]|e3]; simpl; [|done].
  destruct (rc3 =? 0); simpl; intros [= <- <- <-]; right;
    exists (PyStr.strip o), pre, binary; simpl;
    rewrite <- ?app_assoc; split_and!; eauto using strip_idem; try done;
    by destruct Hpre as [[-> _]| ->]; eauto.
Qed.

(** X17.  [download_ca_cert] runs one [wget] command and returns [True]
    only if the command exited with status 0 and [ca.crt] exists
    afterwards. *)
Theorem download_ca_cert_checks_file url s b s' out :
  download_ca_cert spawn env url s = (Ret b, s', out) →
  issued s' = issued s ++
    ["wget -q " +:+ url +:+ " -O " +:+ certs_dir env +:+ "/ca.crt"] ∧
  (b = true →
     is_Some (files s' !! (certs_dir env +:+ "/ca.crt")) ∧
     ∃ stdout stderr,
       spawn (issued s) ("wget -q " +:+ url +:+ " -O " +:+ certs_dir env +:+ "/ca.crt")
         (files s) = Exited 0 stdout stderr (files s')) ∧
  (b = false → out = [Note (DownloadingCa url); Note CaDownloadError]).
Proof.
  unfold download_ca_cert, run_command, path_exists, get_state,
    mbind, Op_bind, M_bind, lift, say, mret, Op_ret, M_ret. simpl.
  destruct (spawn _ _ _) as [rc o e f|text f|f]; simpl; [| |done].
  - destruct (rc =? 0) eqn:Hrc; simpl.
    + destruct (bool_decide _) eqn:Hf; simpl; intros [= <- <- <-]; simpl;
        split_and!; try done.
      intros _. apply bool_decide_eq_true_1 in Hf. split; [done|].
      apply Z.eqb_eq in Hrc as ->. eauto.
    + intros [= <- <- <-]. simpl. split_and!; done.
  - intros [= <- <- <-]. simpl. split_and!; done.
Qed.



(** *** The database and the CA server *)

(** X19.  [drop_database] runs nothing without the confirmation of the
    operator: it changes no state and returns [False].  Once confirmed it
    ends with exactly one [DROP DATABASE IF EXISTS ... CASCADE] on the
    configured database. *)
Theorem drop_database_confirmation (confirmed : bool) s r s' out :
  drop_database spawn env node confirmed s = (r, s', out) →
  (confirmed = false →
     r = Ret false ∧ s' = s ∧ last out = Some (Note DropCancelled)) ∧
  (∀ b, r = Ret b → confirmed = true →
     ∃ pre binary,
       issued s' = issued s ++ pre ++
         [binary +:+ " sql --certs-dir=" +:+ certs_dir env +:+
          " --host=localhost:" +:+ sql_port env +:+ " --execute=" +:+ dquote +:+
          "DROP DATABASE IF EXISTS " +:+ db_name env +:+ " CASCADE;" +:+ dquote] ∧
       (pre = [] ∨ pre = ["which cockroach"]) ∧
       (b = true ↔ last out = Some (Note DatabaseDropped))).
Proof.
  unfold drop_database. destruct confirmed; simpl.
  2:{ unfold mbind, Op_bind, say, mret, Op_ret. simpl. intros [= <- <- <-].
      split; [done|]. intros b _ Hc. done. }
  unfold mbind, Op_bind, lift, say, mret, Op_ret.
  destruct (get_cockroach_binary_cases s)
    as (f1 & pre & r1 & H1 & Hpre & [->|[binary ->]]);
    rewrite H1; simpl.
  { intros [= <- <- <-]. split; [done|]. intros b Hb. done. }
  match goal with |- context [run_command _ _ ?c _ _ _] =>
    destruct (run_command_cases c true (state_after s f1 pre))
      as (f2 & r2 & H2 & Hr2)
  end.
  rewrite H2. simpl. rewrite state_after_after.
  destruct r2 as [[[rc2 o2] e2]|e2]; simpl.
  - destruct (rc2 =? 0); simpl; intros [= <- <- <-]; (split; [done|]);
      intros b [= <-] _; exists pre, binary; simpl; split_and!; try done;
      by destruct Hpre as [[-> _]| ->]; eauto.
  - intros [= <- <- <-]. split; [done|]. intros b Hb. done.
Qed.

(** X20.  With a PID file, [stop_ca_server] runs exactly [kill <pid>]
    with the stripped content of the file: no [sudo], no signal option.
    On status 0 the PID file is removed and the result is [True]; on any
    failure the file is left as the command left it and the result is
    [False].  If the signal was delivered and the PID file is gone by
    then, [unlink] raises [OSError]. *)
Theorem stop_ca_server_with_pid_file s text :
  let pid_file := astranet_dir env +:+ "/ca_server.pid" in
  let cmd := "kill " +:+ PyStr.strip text in
  files s !! pid_file = Some text →
  ∃ r s' out,
    stop_ca_server spawn env s = (r, s', out) ∧
    issued s' = issued s ++ [cmd] ∧
    match spawn (issued s) cmd (files s) with
    | Exited returncode _ _ f' =>
        if returncode =? 0 then
          match f' !! pid_file with
          | Some _ =>
              r = Ret true ∧ files s' = delete pid_file f' ∧
              last out = Some MsgCaStopped
          | None => r = Raise OSError ∧ files s' = f'
          end
        else r = Ret false ∧ files s' = f' ∧ last out = Some ErrStoppingCa
    | SpawnFailed _ f' =>
        r = Ret false ∧ files s' = f' ∧ last out = Some ErrStoppingCa
    | Interrupted f' => r = Raise KeyboardInterrupt ∧ files s' = f'
    end.
Proof.
  cbv zeta. intros Hpid.
  unfold stop_ca_server, path_exists, read_text, unlink, run_command, print,
    get_state, put_state, mbind, M_bind, mret, M_ret.
  do 3 (cbn; rewrite ?Hpid).
  destruct (spawn _ _ _) as [rc o e f|t f|f]; cbn.
  - destruct (rc =? 0); cbn.
    + destruct (f !! _); cbn; by eexists _, _, _.
    + by eexists _, _, _.
  - by eexists _, _, _.
  - by eexists _, _, _.
Qed.

(** *** Migrations *)











End FurtherProperties.
(** ** The further properties on sample hosts *)

Lemma save_config_twice_witness :
  let s1 := (save_config new_domain (configured two_sections)).1.2 in
  save_config new_port s1
    = save_config (new_port ∪ new_domain) (configured two_sections) ∧
  save_config new_domain s1 = (Ret true, s1, []).
Proof.
  intros s1.
  apply (save_config_twice new_domain new_port (configured two_sections) s1 []).
  vm_compute. reflexivity.
Defined.

Lemma save_config_replaces_defaults_witness :
  load_config (host []) = (Ret (JObj default_config), host [], []) ∧
  ∃ s', save_config new_domain (host []) = (Ret true, s', []) ∧
        load_config s' = (Ret (JObj new_domain), s', []).
Proof.
  apply (save_config_replaces_defaults new_domain (host [])). left. reflexivity.
Defined.

Lemma update_config_raises_witness :
  update_config new_domain (configured list_section)
    = (Raise AttributeError, configured list_section, []) ∧
  ∃ e, save_config new_domain (configured list_section)
         = (Ret false, configured list_section, [ErrSaveConfig e]).
Proof.
  apply (update_config_raises new_domain (configured list_section) list_section
           (JArr [JStr "node1.local"])).
  - reflexivity.
  - vm_compute. reflexivity.
  - intros fields. discriminate.
Defined.

Lemma is_port_in_use_pid_witness :
  ∃ s', is_port_in_use busy_spawn sample_env 3000 (host [])
          = (Ret (true, Some "4242"), s', []) ∧
        issued s' = ["lsof -i :3000 -t 2>/dev/null | head -1"] ∧
        PyStr.strip "4242" = "4242".
Proof.
  eexists. split; [vm_compute; reflexivity|].
  destruct (is_port_in_use_pid busy_spawn sample_env 3000 (host []) true (Some "4242")
              (is_port_in_use busy_spawn sample_env 3000 (host [])).1.2 [])
    as (_ & Hi & _ & _ & _ & _ & Hs).
  - vm_compute. reflexivity.
  - split; [exact Hi|exact Hs].
Defined.

Lemma get_service_pid_line_witness :
  ∃ s', get_service_pid busy_spawn sample_env "astranet" (host [])
          = (Ret (Some "4242"), s', []) ∧
        PyStr.split (ascii_of_nat 10) "4242" = ["4242"] ∧
        issued s' = ["pgrep -f 'astranet'"].
Proof.
  eexists. split; [vm_compute; reflexivity|].
  destruct (get_service_pid_line busy_spawn sample_env "astranet" (host []) "4242"
              (get_service_pid busy_spawn sample_env "astranet" (host [])).1.2 [])
    as (_ & _ & Hl & Hi).
  - vm_compute. reflexivity.
  - split; [exact Hl|exact Hi].
Defined.

Lemma get_services_status_pids_witness :
  let run := get_services_status busy_spawn sample_env (host []) in
  run.1.1 = Ret ((true, "4242"), (true, "4242")) ∧
  issued run.1.2 = ["lsof -i :3000 -t 2>/dev/null | head -1";
                    "lsof -i :5173 -t 2>/dev/null | head -1"].
Proof.
  intros run. split; [vm_compute; reflexivity|].
  destruct (get_services_status_pids busy_spawn sample_env (host [])
              true "4242" true "4242" run.1.2 run.2) as (_ & _ & Hi).
  - vm_compute. reflexivity.
  - exact Hi.
Defined.

Lemma stop_backend_signal_witness :
  let run := stop_backend busy_spawn sample_env (host []) in
  run.1.1 = Ret true ∧
  ∃ signals,
    issued run.1.2 = "lsof -i :3000 -t 2>/dev/null | head -1" :: signals ∧
    (signals = [] ∨ ∃ pid, pid ≠ "" ∧ signals = ["kill -15 " +:+ pid]).
Proof.
  intros run. split; [vm_compute; reflexivity|].
  destruct (stop_backend_signal busy_spawn sample_env (host []) run.1.1 run.1.2 run.2)
    as (signals & Hi & Hs & _).
  - vm_compute. reflexivity.
  - exists signals. split; [exact Hi|exact Hs].
Defined.

Lemma stop_dashboard_signal_witness :
  let run := stop_dashboard busy_spawn sample_env (host []) in
  run.1.1 = Ret true ∧
  ∃ signals,
    issued run.1.2 = "lsof -i :5173 -t 2>/dev/null | head -1" :: signals ∧
    (signals = [] ∨ ∃ pid, pid ≠ "" ∧ signals = ["kill -15 " +:+ pid]).
Proof.
  intros run. split; [vm_compute; reflexivity|].
  destruct (stop_dashboard_signal busy_spawn sample_env (host []) run.1.1 run.1.2 run.2)
    as (signals & Hi & Hs & _).
  - vm_compute. reflexivity.
  - exists signals. split; [exact Hi|exact Hs].
Defined.

Lemma cockroach_binary_agrees_witness :
  is_cockroach_installed calm_spawn sample_env sample_node installed
    = (Ret true, installed, []) ∧
  get_cockroach_binary calm_spawn sample_env sample_node installed
    = (Ret "/usr/local/bin/cockroach", installed, []).
Proof.
  assert (is_cockroach_installed calm_spawn sample_env sample_node installed
          = (Ret true, installed, [])) as H by (vm_compute; reflexivity).
  split; [exact H|].
  destruct (cockroach_binary_agrees calm_spawn sample_env sample_node installed
              true installed [] H) as (path & Hb & _ & _ & Hfirst).
  rewrite Hb, Hfirst; [reflexivity|]. vm_compute. eexists. reflexivity.
Defined.

Lemma is_cockroach_running_pid_witness :
  ∃ s', is_cockroach_running busy_spawn sample_env (host [])
          = (Ret (true, "4242"), s', []) ∧
        PyStr.strip "4242" = "4242" ∧ signals (issued s') = [].
Proof.
  eexists. split; [vm_compute; reflexivity|].
  destruct (is_cockroach_running_pid busy_spawn sample_env (host []) true "4242"
              (is_cockroach_running busy_spawn sample_env (host [])).1.2 [])
    as (_ & Hs & _).
  - vm_compute. reflexivity.
  - split; [exact Hs|]. vm_compute. reflexivity.
Defined.

Lemma stop_cockroach_escalation_witness :
  let run := stop_cockroach busy_spawn sample_env (host []) in
  run.1.1 = Ret false ∧
  ∃ pid, signals (issued run.1.2)
         = ["kill -TERM " +:+ pid; "pkill -9 -f 'cockroach start'"].
Proof.
  intros run. split; [vm_compute; reflexivity|].
  destruct (stop_cockroach_escalation busy_spawn sample_env (host [])
              run.1.1 run.1.2 run.2) as (cmds & Hi & _ & _ & Hf).
  - vm_compute. reflexivity.
  - destruct Hf as [pid Hpid]; [vm_compute; reflexivity|].
    exists pid. rewrite Hi. exact Hpid.
Defined.

Lemma create_client_cert_steps_witness :
  let run := create_client_cert calm_spawn sample_env sample_node installed in
  run.1.1 = Ret true ∧
  run.2 = [Note GeneratingClientCert; Note ClientCertGenerated;
           Note ConvertingKey; Note KeyConverted].
Proof.
  intros run. split; [vm_compute; reflexivity|].
  destruct (create_client_cert_steps calm_spawn sample_env sample_node installed
              true run.1.2 run.2) as (pre & binary & conv & _ & _ & _ & Ht & _).
  - vm_compute. reflexivity.
  - apply Ht. reflexivity.
Defined.

Lemma create_ca_cert_error_text_witness :
  let run := create_ca_cert failing_spawn sample_env sample_node installed in
  run.1.1 = Ret false ∧
  ∃ text, run.2 = [Note GeneratingCa; Note (CertError text)].
Proof.
  intros run. split; [vm_compute; reflexivity|].
  destruct (create_ca_cert_error_text failing_spawn sample_env sample_node installed
              run.1.2 run.2) as (text & Ho & _).
  - vm_compute. reflexivity.
  - exists text. exact Ho.
Defined.

Lemma create_node_cert_names_witness :
  let run := create_node_cert addressed_spawn sample_env sample_node installed in
  run.1.1 = Ret true ∧
  last (issued run.1.2)
    = Some ("/usr/local/bin/cockroach cert create-node " +:+
            "localhost 127.0.0.1 10.0.0.5 node1.local" +:+
            " --certs-dir=/root/.astranet/certs" +:+
            " --ca-key=/root/.astranet/certs/ca.key") ∧
  last run.2 = Some (Note NodeCertGenerated).
Proof.
  intros run. split; [vm_compute; reflexivity|]. split; [vm_compute; reflexivity|].
  destruct (create_node_cert_names addressed_spawn sample_env sample_node installed
              true run.1.2 run.2) as [(Hb & _)|(ip & pre & binary & _ & _ & _ & _ & Ht & _)].
  - vm_compute. reflexivity.
  - discriminate Hb.
  - apply Ht. reflexivity.
Defined.

Lemma download_ca_cert_checks_file_witness :
  let url := "https://node2.local:8443/ca.crt" in
  let run := download_ca_cert calm_spawn sample_env url trusting in
  run.1.1 = Ret true ∧
  is_Some (files run.1.2 !! (certs_dir sample_env +:+ "/ca.crt")).
Proof.
  intros url run. split; [vm_compute; reflexivity|].
  destruct (download_ca_cert_checks_file calm_spawn sample_env url trusting
              true run.1.2 run.2) as (_ & Ht & _).
  - vm_compute. reflexivity.
  - destruct Ht as [Hfile _]; [reflexivity|exact Hfile].
Defined.


Lemma drop_database_confirmation_witness :
  drop_database calm_spawn sample_env sample_node false (host [])
    = (Ret false, host [], [Note DropCancelled]).
Proof.
  destruct (drop_database_confirmation calm_spawn sample_env sample_node false (host [])
              (Ret false) (host []) [Note DropCancelled]) as (Hc & _).
  - reflexivity.
  - reflexivity.
Defined.

Lemma stop_ca_server_with_pid_file_witness :
  ∃ s' out,
    stop_ca_server calm_spawn sample_env serving_ca = (Ret true, s', out) ∧
    issued s' = ["kill 4242"] ∧ files s' = ∅.
Proof.
  destruct (stop_ca_server_with_pid_file calm_spawn sample_env serving_ca
              ("4242" +:+ newline)) as (r & s' & out & Heq & Hi & Hcase).
  - vm_compute. reflexivity.
  - assert ((r, s', out) = (stop_ca_server calm_spawn sample_env serving_ca)) as Hval
      by (by rewrite Heq).
    vm_compute in Hval. injection Hval as -> -> ->.
    eexists _, _. split; [vm_compute; reflexivity|]. split; reflexivity.
Defined.







Lemma compile_backend_result_witness :
  let run := compile_backend failing_spawn sample_env (host []) in
  run.1.1 = Ret false ∧ Note DepsOk ∈ run.2 ∧
  last run.2 = Some (Note CompileError).
Proof.
  intros run. split; [vm_compute; reflexivity|].
  destruct (compile_backend_result failing_spawn sample_env (host [])
              false run.1.2 run.2) as (install & _ & _ & Hd & _ & Hf).
  - vm_compute. reflexivity.
  - split; [exact Hd|]. apply Hf. reflexivity.
Defined.
